(** * MCP connection manager: a shallow embedding of
      [src/mcp_agent/mcp/mcp_connection_manager.py]

    The module keeps a table of long-lived server connections.  Every
    connection is driven by a background coroutine (the lifecycle task) that
    opens a transport, builds a session, runs the handshake and then parks
    until shutdown is requested.

    The embedding has three layers:
    - [M], a state-and-exception monad for the synchronous stretches of
      Python code (everything between two [await]s);
    - [prog], a resumption monad whose only effectful constructor is a
      suspension point ([await]); coroutines are values of this type;
    - a scheduler that interleaves coroutines on a shared [World]. *)

From stdpp Require Import gmap strings list fin_maps.
From Stdlib Require Import ZArith.

(** ** Python values *)

(** An instance attribute that may never have been assigned: reading a
    [Missing] attribute raises [AttributeError], [hasattr] tests for [Has]. *)
Inductive attr (A : Type) : Type :=
| Missing
| Has (a : A).
Arguments Missing {A}.
Arguments Has {A} a.

Definition hasattr {A} (x : attr A) : bool :=
  match x with Has _ => true | Missing => false end.

(** Exceptions.  The first four are the builtin classes the module raises
    itself or provokes in the interpreter; [Foreign] is whatever a
    collaborator (transport, session, hook) raises.  Its flag tells whether
    the object derives from [Exception] or only from [BaseException]
    (cancellation, [KeyboardInterrupt], [SystemExit]). *)
Inductive exn : Type :=
| RuntimeError (msg : string)
| ValueError (msg : string)
| AttributeError (msg : string)
| TypeError (msg : string)
| Foreign (derives_Exception : bool) (name : string).

Definition isinstance_Exception (e : exn) : bool :=
  match e with
  | Foreign b _ => b
  | _ => true
  end.

Inductive result (A : Type) : Type :=
| Ok (a : A)
| Exc (e : exn).
Arguments Ok {A} a.
Arguments Exc {A} e.

(** [datetime.timedelta]: a duration in normal form, with
    [0 <= seconds < 86400] and [0 <= microseconds < 1000000]. *)
Record timedelta : Type := {
  days : Z;
  seconds : Z;
  microseconds : Z;
}.

(** The normal form of a whole number of seconds. *)
Definition timedelta_seconds (s : Z) : timedelta :=
  {| days := Z.div s 86400;
     seconds := Z.modulo s 86400;
     microseconds := 0 |}.

(** [datetime.timedelta(seconds=s)] for an integer [s]: the constructor
    raises [OverflowError] when the number of days has a magnitude above
    999999999. *)
Definition new_timedelta (s : Z) : result timedelta :=
  let d := timedelta_seconds s in
  if (Z.abs (days d) <=? 999999999)%Z then Ok d
  else Exc (Foreign true "OverflowError").

(** The duration in seconds, for a duration without microseconds. *)
Definition total_seconds (d : timedelta) : Z :=
  (days d * 86400 + seconds d)%Z.

(** ** Data model *)

(** Streams, heap references and asyncio task names are numbers. *)
Abbreviation stream := nat (only parsing).
Abbreviation loc := nat (only parsing).
Abbreviation task_name := nat (only parsing).

(** The fields of [mcp_agent.config.MCPServerSettings] that this module
    reads. *)
Record MCPServerSettings : Type := {
  transport : string;
  command : option string;
  args : list string;
  env : option (gmap string string);
  url : option string;
  read_timeout_seconds : option Z;
  auth : option string;
}.

(** A protocol session as this module sees it: an identity, the optional
    [server_config] attribute probed with [hasattr], and the outcome of the
    two awaits the lifecycle task performs on it. *)
Record ClientSession : Type := {
  session_id : nat;
  session_server_config : attr (option MCPServerSettings);
  session_aenter : result unit;
  session_initialize : result unit;
}.

Definition session_factory : Type :=
  stream -> stream -> option timedelta -> result ClientSession.

(** An init hook receives whatever [self.session] holds and the configured
    auth material; its return value is discarded. *)
Definition InitHookCallable : Type :=
  option ClientSession -> option string -> result unit.

Record StdioServerParameters : Type := {
  sp_command : option string;
  sp_args : list string;
  sp_env : gmap string string;
}.

(** The async context manager a transport constructor returns; entering it
    yields the stream pair or raises. *)
Record TransportContext : Type := {
  transport_aenter : result (stream * stream);
}.

Record ServerConnection : Type := {
  server_name : string;
  server_config : MCPServerSettings;
  session : option ClientSession;
  _client_session_factory : session_factory;
  _init_hook : option InitHookCallable;
  _transport_context_factory : unit -> result TransportContext;
  _initialized_event : bool;
  _shutdown_event : bool;
}.

Definition with_session (s : option ClientSession) (c : ServerConnection) :=
  {| server_name := server_name c;
     server_config := server_config c;
     session := s;
     _client_session_factory := _client_session_factory c;
     _init_hook := _init_hook c;
     _transport_context_factory := _transport_context_factory c;
     _initialized_event := _initialized_event c;
     _shutdown_event := _shutdown_event c |}.

Definition with_initialized (b : bool) (c : ServerConnection) :=
  {| server_name := server_name c;
     server_config := server_config c;
     session := session c;
     _client_session_factory := _client_session_factory c;
     _init_hook := _init_hook c;
     _transport_context_factory := _transport_context_factory c;
     _initialized_event := b;
     _shutdown_event := _shutdown_event c |}.

Definition with_shutdown (b : bool) (c : ServerConnection) :=
  {| server_name := server_name c;
     server_config := server_config c;
     session := session c;
     _client_session_factory := _client_session_factory c;
     _init_hook := _init_hook c;
     _transport_context_factory := _transport_context_factory c;
     _initialized_event := _initialized_event c;
     _shutdown_event := b |}.

Definition with_server_config (cfg : MCPServerSettings) (s : ClientSession) :=
  {| session_id := session_id s;
     session_server_config := Has (Some cfg);
     session_aenter := session_aenter s;
     session_initialize := session_initialize s |}.

(** An anyio task group is known by its identity alone; what was handed to
    [start_soon] is kept in the world's [spawned] list. *)
Abbreviation TaskGroup := nat (only parsing).

(** The application context, reduced to the two attributes [__aenter__]
    plants on it. *)
Record Context : Type := {
  _connection_task_group : attr TaskGroup;
  _connection_task_group_context : attr task_name;
}.

Record ServerRegistry : Type := {
  registry : gmap string MCPServerSettings;
  init_hooks : gmap string InitHookCallable;
}.

Record MCPConnectionManager : Type := {
  server_registry : ServerRegistry;
  running_servers : gmap string loc;
  _lock : option task_name;
  _tg : attr (option TaskGroup);
}.

(** Calls into collaborators, recorded in program order. *)
Inductive event : Type :=
| EnterTransport
| ExitTransport
| CallSessionFactory (read_stream send_stream : stream)
    (read_timeout : option timedelta)
| EnterSession (sid : nat)
| ExitSession (sid : nat)
| CallInitialize (sid : nat)
| CallInitHook (sid : option nat) (auth_material : option string)
| SetInitialized (c : loc).

(** Everything the coroutines share: the heap of connection objects
    (a [ServerConnection] reference is an index into it), the number of task
    groups created so far, the lifecycle tasks started with [start_soon]
    (task group and connection, oldest first), the context, the manager and
    the call trace. *)
Record World : Type := {
  connections : list ServerConnection;
  task_groups : nat;
  spawned : list (TaskGroup * loc);
  context : Context;
  manager : MCPConnectionManager;
  trace : list event;
}.

Definition with_connections (f : list ServerConnection -> list ServerConnection)
    (w : World) : World :=
  {| connections := f (connections w);
     task_groups := task_groups w;
     spawned := spawned w;
     context := context w;
     manager := manager w;
     trace := trace w |}.

Definition with_task_groups (f : nat -> nat)
    (w : World) : World :=
  {| connections := connections w;
     task_groups := f (task_groups w);
     spawned := spawned w;
     context := context w;
     manager := manager w;
     trace := trace w |}.

Definition with_spawned (f : list (TaskGroup * loc) -> list (TaskGroup * loc))
    (w : World) : World :=
  {| connections := connections w;
     task_groups := task_groups w;
     spawned := f (spawned w);
     context := context w;
     manager := manager w;
     trace := trace w |}.

Definition with_context (f : Context -> Context)
    (w : World) : World :=
  {| connections := connections w;
     task_groups := task_groups w;
     spawned := spawned w;
     context := f (context w);
     manager := manager w;
     trace := trace w |}.

Definition with_manager (f : MCPConnectionManager -> MCPConnectionManager)
    (w : World) : World :=
  {| connections := connections w;
     task_groups := task_groups w;
     spawned := spawned w;
     context := context w;
     manager := f (manager w);
     trace := trace w |}.

Definition with_trace (f : list event -> list event)
    (w : World) : World :=
  {| connections := connections w;
     task_groups := task_groups w;
     spawned := spawned w;
     context := context w;
     manager := manager w;
     trace := f (trace w) |}.

Definition with_running_servers (f : gmap string loc -> gmap string loc)
    (m : MCPConnectionManager) : MCPConnectionManager :=
  {| server_registry := server_registry m;
     running_servers := f (running_servers m);
     _lock := _lock m;
     _tg := _tg m |}.

Definition with_lock_owner (o : option task_name)
    (m : MCPConnectionManager) : MCPConnectionManager :=
  {| server_registry := server_registry m;
     running_servers := running_servers m;
     _lock := o;
     _tg := _tg m |}.

Definition with_tg (g : attr (option TaskGroup))
    (m : MCPConnectionManager) : MCPConnectionManager :=
  {| server_registry := server_registry m;
     running_servers := running_servers m;
     _lock := _lock m;
     _tg := g |}.

(** Observations on a connection reference. *)
Definition is_initialized (w : World) (c : loc) : bool :=
  match connections w !! c with
  | Some conn => _initialized_event conn
  | None => false
  end.

Definition is_shutdown_requested (w : World) (c : loc) : bool :=
  match connections w !! c with
  | Some conn => _shutdown_event conn
  | None => false
  end.

Definition session_of (w : World) (c : loc) : option ClientSession :=
  match connections w !! c with
  | Some conn => session conn
  | None => None
  end.

(** ** Synchronous code: state and exceptions *)

Definition M (A : Type) : Type := World -> result A * World.

#[global] Instance M_ret : MRet M := fun A a w => (Ok a, w).

#[global] Instance M_bind : MBind M := fun A B f m w =>
  match m w with
  | (Ok a, w') => f a w'
  | (Exc e, w') => (Exc e, w')
  end.

Definition raise {A} (e : exn) : M A := fun w => (Exc e, w).
Definition gets {A} (f : World -> A) : M A := fun w => (Ok (f w), w).
Definition modify (f : World -> World) : M unit := fun w => (Ok tt, f w).
Definition emit (ev : event) : M unit :=
  modify (with_trace (fun t => t ++ [ev])).

(** Lifting the outcome of a collaborator call. *)
Definition lift_result {A} (r : result A) : M A := fun w => (r, w).

(** Dereferencing a connection.  Python references never dangle; the
    [None] branch is there only because the heap is a list. *)
Definition dangling : exn := Foreign false "dangling reference".

Definition deref (self : loc) : M ServerConnection := fun w =>
  match connections w !! self with
  | Some conn => (Ok conn, w)
  | None => (Exc dangling, w)
  end.

Definition update (self : loc) (f : ServerConnection -> ServerConnection)
    : M unit :=
  modify (with_connections (alter f self)).

(** ** Coroutines *)

(** A coroutine is finished ([Return], [Raise]) or parked at a suspension
    point: it can be resumed in worlds where [ready] holds; resuming it
    applies [effect] to the world and continues with [resume], both of which
    see the world at the moment of resumption.

    Every synchronous stretch is a suspension point of its own, so the
    scheduler below admits all interleavings of asyncio's cooperative loop
    and more (those of preemptive threads that keep each stretch atomic). *)
Inductive prog (A : Type) : Type :=
| Return (a : A)
| Raise (e : exn)
| Suspend (ready : World -> bool) (effect : World -> World)
    (resume : World -> prog A).
Arguments Return {A} a.
Arguments Raise {A} e.
Arguments Suspend {A} ready effect resume.

Fixpoint prog_bind {A B} (k : A -> prog B) (p : prog A) : prog B :=
  match p with
  | Return a => k a
  | Raise e => Raise e
  | Suspend g eff r => Suspend g eff (fun w => prog_bind k (r w))
  end.

#[global] Instance prog_ret : MRet prog := fun A a => Return a.
#[global] Instance prog_mbind : MBind prog := fun A B k p => prog_bind k p.

(** Run [m] once [ready] holds. *)
Definition await_when {A} (ready : World -> bool) (m : M A) : prog A :=
  Suspend ready (fun w => (m w).2)
    (fun w => match (m w).1 with Ok a => Return a | Exc e => Raise e end).

Definition sync {A} (m : M A) : prog A := await_when (fun _ => true) m.

(** [try: body / except ...: handler]; [handler e = None] when no clause
    matches [e]. *)
Fixpoint try_except {A} (body : prog A) (handler : exn -> option (prog A))
    : prog A :=
  match body with
  | Return a => Return a
  | Raise e => match handler e with Some h => h | None => Raise e end
  | Suspend g eff r => Suspend g eff (fun w => try_except (r w) handler)
  end.

(** [except Exception as exc:] *)
Definition except_Exception {A} (body : prog A) (handler : exn -> prog A)
    : prog A :=
  try_except body
    (fun exc => if isinstance_Exception exc then Some (handler exc) else None).

(** [try: body / finally: fin]. *)
Fixpoint try_finally {A} (body : prog A) (fin : prog unit) : prog A :=
  match body with
  | Return a => prog_bind (fun _ => Return a) fin
  | Raise e => prog_bind (fun _ => Raise e) fin
  | Suspend g eff r => Suspend g eff (fun w => try_finally (r w) fin)
  end.

(** [async with cm as x: body], for context managers that do not swallow
    exceptions. *)
Definition async_with {X A} (aenter : prog X) (aexit : prog unit)
    (body : X -> prog A) : prog A :=
  x ← aenter; try_finally (body x) aexit.

(** One scheduler step of a coroutine; [None] when it is finished or
    parked on a condition that does not hold. *)
Definition step {A} (p : prog A) (w : World) : option (prog A * World) :=
  match p with
  | Suspend g eff r => if g w then Some (r w, eff w) else None
  | _ => None
  end.

(** Run a coroutine on its own until it finishes, parks, or the fuel is
    spent. *)
Fixpoint exec {A} (fuel : nat) (p : prog A) (w : World) : prog A * World :=
  match fuel with
  | O => (p, w)
  | S fuel' =>
      match step p w with
      | Some (p', w') => exec fuel' p' w'
      | None => (p, w)
      end
  end.

Inductive status (A : Type) : Type :=
| Returned (a : A)
| Raised (e : exn)
| Parked
| Runnable.
Arguments Returned {A} a.
Arguments Raised {A} e.
Arguments Parked {A}.
Arguments Runnable {A}.

Definition status_of {A} (p : prog A) (w : World) : status A :=
  match p with
  | Return a => Returned a
  | Raise e => Raised e
  | Suspend g _ _ => if g w then Runnable else Parked
  end.

(** ** ServerConnection *)

Module ServerConnectionMethods.

(** [ServerConnection.__init__]: no session, both events unset. *)
Definition __init__ (server_name : string) (server_config : MCPServerSettings)
    (transport_context_factory : unit -> result TransportContext)
    (client_session_factory : session_factory)
    (init_hook : option InitHookCallable) : ServerConnection :=
  {| server_name := server_name;
     server_config := server_config;
     session := None;
     _client_session_factory := client_session_factory;
     _init_hook := init_hook;
     _transport_context_factory := transport_context_factory;
     _initialized_event := false;
     _shutdown_event := false |}.

Definition request_shutdown (self : loc) : M unit :=
  update self (with_shutdown true).

Definition wait_for_shutdown_request (self : loc) : prog unit :=
  await_when (fun w => is_shutdown_requested w self) (mret tt).

(** [self._initialized_event.set()] *)
Definition set_initialized (self : loc) : M unit :=
  update self (with_initialized true);;
  emit (SetInitialized self).

(** [await self.session.initialize()] *)
Definition await_session_initialize (self : loc) : prog unit :=
  sync (conn ← deref self;
        match session conn with
        | None =>
            raise (AttributeError
                     "'NoneType' object has no attribute 'initialize'")
        | Some s =>
            emit (CallInitialize (session_id s));;
            lift_result (session_initialize s)
        end).

Definition initialize_session (self : loc) : prog unit :=
  await_session_initialize self;;
  sync (conn ← deref self;
        match _init_hook conn with
        | Some hook =>
            emit (CallInitHook (session_id <$> session conn)
                    (auth (server_config conn)));;
            lift_result (hook (session conn) (auth (server_config conn)))
        | None => mret tt
        end;;
        set_initialized self).

Definition wait_for_initialized (self : loc) : prog unit :=
  await_when (fun w => is_initialized w self) (mret tt).

(** The conditional expression of [create_session]: unset and zero are
    false and give [None]; any other value is handed to [timedelta]. *)
Definition read_timeout_of (cfg : MCPServerSettings)
    : result (option timedelta) :=
  match read_timeout_seconds cfg with
  | Some t =>
      if (t =? 0)%Z then Ok None
      else match new_timedelta t with
           | Ok d => Ok (Some d)
           | Exc e => Exc e
           end
  | None => Ok None
  end.

Definition create_session (self : loc) (read_stream send_stream : stream)
    : M ClientSession :=
  conn ← deref self;
  read_timeout ← lift_result (read_timeout_of (server_config conn));
  emit (CallSessionFactory read_stream send_stream read_timeout);;
  s ← lift_result
        (_client_session_factory conn read_stream send_stream read_timeout);
  let s' :=
    if hasattr (session_server_config s)
    then with_server_config (server_config conn) s
    else s in
  update self (with_session (Some s'));;
  mret s'.

End ServerConnectionMethods.

(** ** Transport collaborators *)

(** The three library functions [launch_server] closes over:
    [mcp.client.stdio.get_default_environment],
    [mcp_agent.mcp.stdio.stdio_client_with_rich_stderr] and
    [mcp.client.sse.sse_client]. *)
Class Transports : Type := {
  get_default_environment : gmap string string;
  stdio_client_with_rich_stderr : StdioServerParameters -> TransportContext;
  sse_client : option string -> TransportContext;
}.

(** ** The lifecycle task *)

Definition transport_context_aenter (cm : TransportContext)
    : prog (stream * stream) :=
  sync (emit EnterTransport;; lift_result (transport_aenter cm)).

Definition transport_context_aexit : prog unit :=
  sync (emit ExitTransport).

(** [async with server_conn.session:] evaluates the attribute first. *)
Definition session_context_aenter (s : option ClientSession) : prog unit :=
  match s with
  | Some s => sync (emit (EnterSession (session_id s));;
                    lift_result (session_aenter s))
  | None =>
      Raise (TypeError "'NoneType' object does not support the asynchronous context manager protocol")
  end.

Definition session_context_aexit (s : option ClientSession) : prog unit :=
  match s with
  | Some s => sync (emit (ExitSession (session_id s)))
  | None => Return tt
  end.

(** The body of the [try] statement. *)
Definition lifecycle_body (server_conn : loc) : prog unit :=
  transport_context ←
    sync (conn ← deref server_conn;
          lift_result (_transport_context_factory conn tt));
  async_with (transport_context_aenter transport_context)
    transport_context_aexit
    (fun '(read_stream, write_stream) =>
       sync (ServerConnectionMethods.create_session server_conn
               read_stream write_stream);;
       s ← sync (conn ← deref server_conn; mret (session conn));
       async_with (session_context_aenter s) (session_context_aexit s)
         (fun _ =>
            ServerConnectionMethods.initialize_session server_conn;;
            ServerConnectionMethods.wait_for_shutdown_request server_conn)).

(** The [except Exception] clause: set the event so that [get_server] does
    not hang, then re-raise. *)
Definition lifecycle_handler (server_conn : loc) (exc : exn) : prog unit :=
  sync (ServerConnectionMethods.set_initialized server_conn);;
  Raise exc.

Definition _server_lifecycle_task (server_conn : loc) : prog unit :=
  except_Exception (lifecycle_body server_conn)
    (lifecycle_handler server_conn).

(** ** MCPConnectionManager *)

Section Manager.
Context `{Transports}.

(** The asyncio task running the coroutine ([asyncio.current_task()]). *)
Variable me : task_name.

(** [MCPConnectionManager.__init__]: an empty table and a fresh lock.
    Nothing is assigned to [_tg] here. *)
Definition __init__ (server_registry : ServerRegistry) : MCPConnectionManager :=
  {| server_registry := server_registry;
     running_servers := ∅;
     _lock := None;
     _tg := Missing |}.

(** [self._tg] *)
Definition getattr_tg : M (option TaskGroup) := fun w =>
  match _tg (manager w) with
  | Has g => (Ok g, w)
  | Missing =>
      (Exc (AttributeError
              "'MCPConnectionManager' object has no attribute '_tg'"), w)
  end.

(** [anyio.Lock]: acquiring parks the task until the lock is free;
    releasing a lock one does not hold raises. *)
Definition lock_acquire : prog unit :=
  await_when (fun w => bool_decide (_lock (manager w) = None))
    (modify (with_manager (with_lock_owner (Some me)))).

Definition lock_release : M unit := fun w =>
  if bool_decide (_lock (manager w) = Some me)
  then (Ok tt, with_manager (with_lock_owner None) w)
  else (Exc (RuntimeError "The current task is not holding this lock"), w).

(** [async with self._lock: body] for a body without [await]: the body and
    the release run in one stretch, and the release runs on every exit. *)
Definition release_after {A} (body : M A) : M A := fun w =>
  let (r, w1) := body w in
  match lock_release w1 with
  | (Ok _, w2) => (r, w2)
  | (Exc e, w2) => (Exc e, w2)
  end.

Definition async_with_lock {A} (body : M A) : prog A :=
  lock_acquire;;
  sync (release_after body).

(** [__aenter__]: obtain or create the shared task group. *)
Definition __aenter__ : prog unit :=
  created ←
    sync (ctx ← gets context;
          if hasattr (_connection_task_group ctx) then mret false
          else
            g ← gets task_groups;
            modify (with_task_groups S);;
            modify (with_context (fun _ =>
              {| _connection_task_group := Has g;
                 _connection_task_group_context := Has me |}));;
            mret true);
  (if created : bool then sync (mret tt) else Return tt);;
  sync (ctx ← gets context;
        match _connection_task_group ctx with
        | Has g => modify (with_manager (with_tg (Has (Some g))))
        | Missing =>
            raise (AttributeError
                     "'Context' object has no attribute '_connection_task_group'")
        end).

Definition NotEntered : exn :=
  RuntimeError "MCPConnectionManager must be used inside an async context (i.e. 'async with' or after __aenter__).".

Definition ConfigNotFound (server_name : string) : exn :=
  ValueError ("Server '" +:+ server_name +:+ "' not found in registry.").

Definition UnsupportedTransport (kind : string) : exn :=
  ValueError ("Unsupported transport: " +:+ kind).

Definition InitializationFailed (server_name : string) : exn :=
  RuntimeError
    (server_name +:+ ": Failed to initialize server; check logs for errors.").

(** The closure [transport_context_factory] of [launch_server]. *)
Definition transport_context_factory (config : MCPServerSettings)
    (_ : unit) : result TransportContext :=
  if String.eqb (transport config) "stdio" then
    Ok (stdio_client_with_rich_stderr
          {| sp_command := command config;
             sp_args := args config;
             sp_env := default ∅ (env config) ∪ get_default_environment |})
  else if String.eqb (transport config) "sse" then
    Ok (sse_client (url config))
  else Exc (UnsupportedTransport (transport config)).

(** [self._tg.start_soon(_server_lifecycle_task, server_conn)] *)
Definition start_soon (server_conn : loc) : M unit :=
  tg ← getattr_tg;
  match tg with
  | Some g => modify (with_spawned (fun l => l ++ [(g, server_conn)]))
  | None =>
      raise (AttributeError "'NoneType' object has no attribute 'start_soon'")
  end.

(** Putting a freshly built connection object on the heap. *)
Definition new_connection (conn : ServerConnection) : M loc :=
  c ← gets (fun w => length (connections w));
  modify (with_connections (fun l => l ++ [conn]));;
  mret c.

(** The part of [launch_server] before the lock: both guards, the registry
    lookup and the construction of the connection object. *)
Definition launch_prepare (server_name : string)
    (client_session_factory : session_factory)
    (init_hook : option InitHookCallable) : M ServerConnection :=
  tg ← getattr_tg;
  if negb (bool_decide (is_Some tg)) then raise NotEntered
  else
    reg ← gets (fun w => server_registry (manager w));
    match registry reg !! server_name with
    | None => raise (ConfigNotFound server_name)
    | Some config =>
        mret (ServerConnectionMethods.__init__ server_name config
                (transport_context_factory config) client_session_factory
                (match init_hook with
                 | Some h => Some h
                 | None => init_hooks reg !! server_name
                 end))
    end.

(** The critical section of [launch_server]. *)
Definition launch_register (server_name : string)
    (server_conn : ServerConnection) : M loc :=
  running ← gets (fun w => running_servers (manager w));
  match running !! server_name with
  | Some existing => mret existing
  | None =>
      c ← new_connection server_conn;
      modify (with_manager (with_running_servers (insert server_name c)));;
      start_soon c;;
      mret c
  end.

Definition launch_server (server_name : string)
    (client_session_factory : session_factory)
    (init_hook : option InitHookCallable) : prog loc :=
  server_conn ←
    sync (launch_prepare server_name client_session_factory init_hook);
  async_with_lock (launch_register server_name server_conn).

(** The check after readiness in [get_server]. *)
Definition check_session (server_name : string) (server_conn : loc)
    : M loc :=
  conn ← deref server_conn;
  match session conn with
  | None => raise (InitializationFailed server_name)
  | Some _ => mret server_conn
  end.

(** What [get_server] does once the table has no entry for the name. *)
(** The wait and the check of [get_server], on the connection the launch
    returned. *)
Definition await_ready_and_check (server_name : string) (server_conn : loc)
    : prog loc :=
  ServerConnectionMethods.wait_for_initialized server_conn;;
  sync (check_session server_name server_conn).

Definition launch_and_wait (server_name : string)
    (client_session_factory : session_factory)
    (init_hook : option InitHookCallable) : prog loc :=
  server_conn ← launch_server server_name client_session_factory init_hook;
  await_ready_and_check server_name server_conn.

Definition get_server (server_name : string)
    (client_session_factory : session_factory)
    (init_hook : option InitHookCallable) : prog loc :=
  found ← async_with_lock
            (gets (fun w => running_servers (manager w) !! server_name));
  match found with
  | Some server_conn => Return server_conn
  | None => launch_and_wait server_name client_session_factory init_hook
  end.

(** [self.running_servers.pop(server_name, None)] *)
Definition pop_running (server_name : string) : M (option loc) :=
  running ← gets (fun w => running_servers (manager w));
  modify (with_manager (with_running_servers (delete server_name)));;
  mret (running !! server_name).

Definition disconnect_server (server_name : string) : prog unit :=
  server_conn ← async_with_lock (pop_running server_name);
  sync (match server_conn with
        | Some c => ServerConnectionMethods.request_shutdown c
        | None => mret tt
        end).

(** The [for] loop of [disconnect_all]. *)
Fixpoint shutdown_each (items : list (string * loc)) : M unit :=
  match items with
  | [] => mret tt
  | (_, conn) :: rest =>
      ServerConnectionMethods.request_shutdown conn;;
      shutdown_each rest
  end.

Definition disconnect_all : prog unit :=
  async_with_lock
    (running ← gets (fun w => running_servers (manager w));
     if bool_decide (running = ∅) then mret tt
     else
       shutdown_each (map_to_list running);;
       modify (with_manager (with_running_servers (fun _ => ∅)))).

End Manager.

(** ** The scheduler *)

(** Callers are the application tasks invoking manager methods (task [i]
    runs under the name [i]); a lifecycle task exists for every connection
    handed to [start_soon]. *)
Inductive thread : Type :=
| Caller (i : nat)
| Lifecycle (c : loc).

Record system (A : Type) : Type := {
  sys_world : World;
  sys_callers : list (prog A);
  sys_lifecycles : gmap loc (prog unit);
}.
Arguments sys_world {A} s.
Arguments sys_callers {A} s.
Arguments sys_lifecycles {A} s.

Definition is_spawned (w : World) (c : loc) : bool :=
  bool_decide (c ∈ (spawned w).*2).

(** The coroutine of the lifecycle task of [c]: where it was left, or its
    beginning if it has not run yet. *)
Definition lifecycle_of {A} (s : system A) (c : loc) : prog unit :=
  default (_server_lifecycle_task c) (sys_lifecycles s !! c).

(** Let one thread take a step; a thread that cannot move leaves the system
    as it is. *)
Definition sched_step {A} (t : thread) (s : system A) : system A :=
  match t with
  | Caller i =>
      match sys_callers s !! i with
      | Some p =>
          match step p (sys_world s) with
          | Some (p', w') =>
              {| sys_world := w';
                 sys_callers := <[i := p']> (sys_callers s);
                 sys_lifecycles := sys_lifecycles s |}
          | None => s
          end
      | None => s
      end
  | Lifecycle c =>
      if is_spawned (sys_world s) c then
        match step (lifecycle_of s c) (sys_world s) with
        | Some (p', w') =>
            {| sys_world := w';
               sys_callers := sys_callers s;
               sys_lifecycles := <[c := p']> (sys_lifecycles s) |}
        | None => s
        end
      else s
  end.

Definition caller_status {A} (s : system A) (i : nat) : option (status A) :=
  (fun p => status_of p (sys_world s)) <$> sys_callers s !! i.

(** The status of the lifecycle task of [c], if it was started. *)
Definition lifecycle_status {A} (s : system A) (c : loc)
    : option (status unit) :=
  if is_spawned (sys_world s) c
  then Some (status_of (lifecycle_of s c) (sys_world s))
  else None.

Definition run {A} (schedule : list thread) (s : system A) : system A :=
  foldl (fun s t => sched_step t s) s schedule.

Definition start {A} (w : World) (callers : list (prog A)) : system A :=
  {| sys_world := w; sys_callers := callers; sys_lifecycles := ∅ |}.

(** The world right after [MCPConnectionManager(server_registry)]. *)
Definition initial_world (server_registry : ServerRegistry) : World :=
  {| connections := [];
     task_groups := 0;
     spawned := [];
     context := {| _connection_task_group := Missing;
                   _connection_task_group_context := Missing |};
     manager := __init__ server_registry;
     trace := [] |}.

(** ** Vocabulary of the properties *)

(** [preserves R p]: every step [p] can ever take relates the world before
    it to the world after it by [R]; [M_preserves R m] is the same for a
    synchronous stretch. *)
Section Frames.
Variable R : World -> World -> Prop.

Definition M_preserves {A} (m : M A) : Prop := forall w, R w (m w).2.

Inductive preserves {A} : prog A -> Prop :=
| preserves_Return a : preserves (Return a)
| preserves_Raise e : preserves (Raise e)
| preserves_Suspend g eff r :
    (forall w, R w (eff w)) ->
    (forall w, preserves (r w)) ->
    preserves (Suspend g eff r).

End Frames.

(** What a lifecycle task leaves alone: the manager (table, lock, task
    group), the context, the list of started tasks, the size of the heap
    and every connection object but its own. *)
Definition lifecycle_frame (c : loc) (w w' : World) : Prop :=
  manager w' = manager w
  /\ spawned w' = spawned w
  /\ context w' = context w
  /\ task_groups w' = task_groups w
  /\ length (connections w') = length (connections w)
  /\ forall c', c' <> c -> connections w' !! c' = connections w !! c'.

Section LaunchVocabulary.
Context `{Transports}.
Variable server_name : string.

(** The connection object [launch_server] builds from a configuration. *)
Definition built_connection (client_session_factory : session_factory)
    (init_hook : option InitHookCallable) (reg : ServerRegistry)
    (config : MCPServerSettings) : ServerConnection :=
  ServerConnectionMethods.__init__ server_name config
    (transport_context_factory config) client_session_factory
    (match init_hook with
     | Some h => Some h
     | None => init_hooks reg !! server_name
     end).

(** The world after the critical section of [launch_server] registered a
    new connection. *)
Definition registered (g : TaskGroup) (conn : ServerConnection) (w : World)
    : World :=
  let c := length (connections w) in
  with_spawned (fun l => l ++ [(g, c)])
    (with_manager (with_running_servers (insert server_name c))
       (with_connections (fun l => l ++ [conn]) w)).

(** Caller [i] launches [server_name] with its own factory and hook. *)
Definition concurrent_launchers
    (args : list (session_factory * option InitHookCallable))
    : list (prog nat) :=
  imap (fun i a => launch_server i server_name a.1 a.2) args.

(** The points a launching caller can be at.  Only a caller about to run
    the critical section owns the mutex. *)
Inductive launcher_at (i : nat) (w : World) : prog nat -> Prop :=
| launcher_start f hook :
    _lock (manager w) <> Some i ->
    launcher_at i w (launch_server i server_name f hook)
| launcher_acquiring conn :
    _lock (manager w) <> Some i ->
    launcher_at i w (async_with_lock i (launch_register server_name conn))
| launcher_critical conn :
    _lock (manager w) = Some i ->
    launcher_at i w
      (sync (release_after i (launch_register server_name conn)))
| launcher_done c :
    _lock (manager w) <> Some i ->
    running_servers (manager w) !! server_name = Some c ->
    launcher_at i w (Return c).

(** Relative to the world [w0] the launches started from: either nobody
    has registered the name yet, or exactly one connection was registered
    and started for it, in task group [g]. *)
Variables (w0 : World) (g : TaskGroup).

Definition table_state (w : World) : Prop :=
  (running_servers (manager w) !! server_name = None
   /\ spawned w = spawned w0
   /\ length (connections w) = length (connections w0))
  \/ (running_servers (manager w) !! server_name
        = Some (length (connections w0))
      /\ spawned w = spawned w0 ++ [(g, length (connections w0))]
      /\ length (connections w) = S (length (connections w0))).

Record launch_inv (s : system nat) : Prop := {
  inv_tg : _tg (manager (sys_world s)) = Has (Some g);
  inv_registry :
    server_registry (manager (sys_world s)) = server_registry (manager w0);
  inv_table : table_state (sys_world s);
  inv_callers :
    forall i p, sys_callers s !! i = Some p -> launcher_at i (sys_world s) p;
  inv_owner :
    forall i, _lock (manager (sys_world s)) = Some i ->
              is_Some (sys_callers s !! i);
  inv_lifecycles :
    forall c p, sys_lifecycles s !! c = Some p ->
                preserves (lifecycle_frame c) p;
}.

End LaunchVocabulary.

(** ** A concrete deployment, used to exercise the definitions *)

Module Demo.

Definition stdio_config : MCPServerSettings :=
  {| transport := "stdio";
     command := Some "uvx";
     args := ["mcp-server-fetch"];
     env := None;
     url := None;
     read_timeout_seconds := Some 30%Z;
     auth := Some "token" |}.

Definition transports : Transports :=
  {| get_default_environment := {["PATH" := "/usr/bin"]};
     stdio_client_with_rich_stderr := fun _ => {| transport_aenter := Ok (0, 1) |};
     sse_client := fun _ =>
       {| transport_aenter := Exc (Foreign true "ConnectError") |} |}.

(** A configuration whose read timeout is beyond what [timedelta] holds. *)
Definition huge_timeout_config : MCPServerSettings :=
  {| transport := "stdio";
     command := Some "uvx";
     args := ["mcp-server-fetch"];
     env := None;
     url := None;
     read_timeout_seconds := Some 86400000000000%Z;
     auth := None |}.

Definition good_session : ClientSession :=
  {| session_id := 7;
     session_server_config := Has None;
     session_aenter := Ok tt;
     session_initialize := Ok tt |}.

Definition good_factory : session_factory := fun _ _ _ => Ok good_session.

(** A session whose handshake is cancelled. *)
Definition cancelled_session : ClientSession :=
  {| session_id := 8;
     session_server_config := Missing;
     session_aenter := Ok tt;
     session_initialize := Exc (Foreign false "CancelledError") |}.

Definition cancelled_factory : session_factory :=
  fun _ _ _ => Ok cancelled_session.

Definition failing_factory : session_factory :=
  fun _ _ _ => Exc (Foreign true "ConnectionRefusedError").

Definition good_hook : InitHookCallable := fun _ _ => Ok tt.
Definition failing_hook : InitHookCallable :=
  fun _ _ => Exc (Foreign true "HookError").

Definition server_registry : ServerRegistry :=
  {| registry := {["alpha" := stdio_config]};
     init_hooks := ∅ |}.

(** The manager after [async with manager:] was entered by task 0. *)
Definition entered_world : World :=
  (exec 3 (__aenter__ 0) (initial_world server_registry)).2.

(** A connection as [launch_server] builds it. *)
Definition connection (factory : session_factory)
    (hook : option InitHookCallable) : ServerConnection :=
  ServerConnectionMethods.__init__ "alpha" stdio_config
    (transport_context_factory (H := transports) stdio_config) factory hook.

(** A world holding one connection that is in the table and whose
    lifecycle task has been handed to the task group. *)
Definition launched_world (factory : session_factory)
    (hook : option InitHookCallable) : World :=
  (exec 3 (launch_server (H := transports) 0 "alpha" factory hook)
     entered_world).2.

(** The world of [launched_world] at a moment when task [o] holds the
    mutex. *)
Definition busy_world (o : task_name) : World :=
  with_manager (with_lock_owner (Some o)) (launched_world good_factory None).

(** A world holding one connection built from [huge_timeout_config]. *)
Definition huge_timeout_world : World :=
  with_connections
    (fun _ => [ServerConnectionMethods.__init__ "alpha" huge_timeout_config
                 (transport_context_factory (H := transports)
                    huge_timeout_config)
                 good_factory None])
    entered_world.

End Demo.

(** * Properties *)

(** Unfolding the synchronous layer. *)
Ltac unfold_M :=
  unfold mbind, M_bind, mret, M_ret, raise, gets, modify, emit, lift_result,
    update, deref in *.

Example entered_world_tg :
  _tg (manager Demo.entered_world) = Has (Some 0)
  /\ _lock (manager Demo.entered_world) = None
  /\ running_servers (manager Demo.entered_world) = ∅.
Proof. vm_compute. auto. Qed.

Example launched_world_table :
  running_servers (manager (Demo.launched_world Demo.good_factory None)) !! "alpha"
    = Some 0
  /\ spawned (Demo.launched_world Demo.good_factory None) = [(0, 0)]
  /\ is_initialized (Demo.launched_world Demo.good_factory None) 0 = false.
Proof. vm_compute. auto. Qed.

(** ** [create_session] *)

Section CreateSession.
Import ServerConnectionMethods.

Lemma total_seconds_timedelta_seconds t :
  total_seconds (timedelta_seconds t) = t.
Proof.
  unfold total_seconds, timedelta_seconds. cbn.
  rewrite Z.mul_comm. symmetry. apply Z.div_mod. lia.
Qed.

Lemma new_timedelta_in_range t :
  (0 <= t < 86400000000000)%Z -> new_timedelta t = Ok (timedelta_seconds t).
Proof.
  intros Ht. unfold new_timedelta. cbn.
  assert (0 <= t / 86400 < 1000000000)%Z.
  { split; [apply Z.div_pos; lia | apply Z.div_lt_upper_bound; lia]. }
  destruct (Z.leb_spec (Z.abs (t / 86400)) 999999999); [done | lia].
Qed.

Lemma new_timedelta_overflow t :
  (86400000000000 <= t)%Z -> new_timedelta t = Exc (Foreign true "OverflowError").
Proof.
  intros Ht. unfold new_timedelta. cbn.
  assert (1000000000 <= t / 86400)%Z by (apply Z.div_le_lower_bound; lia).
  destruct (Z.leb_spec (Z.abs (t / 86400)) 999999999); [lia | done].
Qed.

Lemma read_timeout_of_unset cfg :
  read_timeout_seconds cfg = None \/ read_timeout_seconds cfg = Some 0%Z ->
  read_timeout_of cfg = Ok None.
Proof. unfold read_timeout_of. intros [-> | ->]; reflexivity. Qed.

Lemma read_timeout_of_positive cfg t :
  read_timeout_seconds cfg = Some t -> (0 < t < 86400000000000)%Z ->
  read_timeout_of cfg = Ok (Some (timedelta_seconds t)).
Proof.
  unfold read_timeout_of. intros -> Ht.
  destruct (Z.eqb_spec t 0); [lia |].
  by rewrite new_timedelta_in_range by lia.
Qed.

Lemma read_timeout_of_overflow cfg t :
  read_timeout_seconds cfg = Some t -> (86400000000000 <= t)%Z ->
  read_timeout_of cfg = Exc (Foreign true "OverflowError").
Proof.
  unfold read_timeout_of. intros -> Ht.
  destruct (Z.eqb_spec t 0); [lia |].
  by rewrite new_timedelta_overflow.
Qed.

(** What [create_session] does once the read timeout is computed: one call
    of the factory with it, and the session that call returns (with
    [server_config] attached when it has that attribute) stored in the
    connection and returned. *)
Lemma create_session_with w self conn read_stream send_stream read_timeout :
  connections w !! self = Some conn ->
  read_timeout_of (server_config conn) = Ok read_timeout ->
  let out := create_session self read_stream send_stream w in
  trace out.2
  = trace w ++ [CallSessionFactory read_stream send_stream read_timeout]
  /\ forall s,
       _client_session_factory conn read_stream send_stream read_timeout
         = Ok s ->
       let s' := if hasattr (session_server_config s)
                 then with_server_config (server_config conn) s else s in
       out.1 = Ok s'
       /\ session_of out.2 self = Some s'
       /\ session_id s' = session_id s.
Proof.
  intros Hconn Hrt out. subst out. unfold create_session. unfold_M.
  rewrite Hconn. cbn. rewrite Hrt. cbn. split.
  - destruct (_client_session_factory conn _ _ _); reflexivity.
  - intros s Hs. rewrite Hs. cbn. split; [done |]. split.
    + unfold session_of. cbn. rewrite list_lookup_alter_eq, Hconn. reflexivity.
    + destruct (hasattr _); reflexivity.
Qed.

(** C10, as the code has it: [create_session] calls the session factory
    once, with no read timeout when [read_timeout_seconds] is unset or zero
    and with a timedelta of [t] seconds when it is a positive [t] that
    [timedelta] accepts ([t < 86400 * 10^9]); the session the factory
    returns (with [server_config] attached when it has that attribute) is
    what the connection's [session] field holds afterwards and what is
    returned.  For a larger [t], [timedelta(seconds=t)] raises
    [OverflowError]: [create_session] raises it and leaves the world as it
    was, the factory is not called. *)
Theorem create_session_read_timeout (w : World) (self : loc)
    (conn : ServerConnection) (read_stream send_stream : stream) :
  connections w !! self = Some conn ->
  let cfg := server_config conn in
  let out := create_session self read_stream send_stream w in
  let called_with (read_timeout : option timedelta) : Prop :=
    trace out.2
    = trace w ++ [CallSessionFactory read_stream send_stream read_timeout]
    /\ forall s,
         _client_session_factory conn read_stream send_stream read_timeout
           = Ok s ->
         let s' := if hasattr (session_server_config s)
                   then with_server_config cfg s else s in
         out.1 = Ok s'
         /\ session_of out.2 self = Some s'
         /\ session_id s' = session_id s in
  (read_timeout_seconds cfg = None \/ read_timeout_seconds cfg = Some 0%Z ->
   called_with None)
  /\ (forall t, read_timeout_seconds cfg = Some t ->
                (0 < t < 86400000000000)%Z ->
       called_with (Some (timedelta_seconds t))
       /\ total_seconds (timedelta_seconds t) = t)
  /\ (forall t, read_timeout_seconds cfg = Some t ->
                (86400000000000 <= t)%Z ->
       out = (Exc (Foreign true "OverflowError"), w)).
Proof.
  intros Hconn cfg out called_with. split; [| split].
  - intros Hunset. apply create_session_with; [done |].
    by apply read_timeout_of_unset.
  - intros t Ht Hrange. split; [| apply total_seconds_timedelta_seconds].
    apply create_session_with; [done |]. by apply read_timeout_of_positive.
  - intros t Ht Hbig. subst out. unfold create_session. unfold_M.
    rewrite Hconn. cbn. fold cfg.
    by rewrite (read_timeout_of_overflow cfg t).
Qed.

Lemma create_session_read_timeout_witness :
  let out := create_session 0 4 5
               (Demo.launched_world Demo.good_factory None) in
  out.1 = Ok (with_server_config Demo.stdio_config Demo.good_session)
  /\ trace out.2 = [CallSessionFactory 4 5 (Some (timedelta_seconds 30))]
  /\ session_of out.2 0
     = Some (with_server_config Demo.stdio_config Demo.good_session)
  /\ total_seconds (timedelta_seconds 30) = 30%Z.
Proof.
  destruct (create_session_read_timeout
              (Demo.launched_world Demo.good_factory None) 0
              (Demo.connection Demo.good_factory None) 4 5 eq_refl)
    as (_ & Hpos & _).
  destruct (Hpos 30%Z eq_refl (conj eq_refl eq_refl)) as [[Htr Hs] Htotal].
  destruct (Hs Demo.good_session eq_refl) as (Hout & Hstored & _).
  split; [exact Hout |]. split; [exact Htr |]. split; [exact Hstored |].
  exact Htotal.
Defined.

(** C10, as stated, fails for a positive [read_timeout_seconds] that
    [timedelta] rejects: with [86400 * 10^9] seconds [create_session]
    raises [OverflowError], the factory is not called and no session is
    stored. *)
Lemma create_session_timeout_overflow :
  let out := create_session 0 4 5 Demo.huge_timeout_world in
  (read_timeout_seconds <$> (server_config <$> connections Demo.huge_timeout_world !! 0))
  = Some (Some 86400000000000%Z)
  /\ out.1 = Exc (Foreign true "OverflowError")
  /\ trace out.2 = []
  /\ session_of out.2 0 = None.
Proof. vm_compute. auto. Qed.

End CreateSession.

(** ** Stepping coroutines *)

Ltac unfold_prog :=
  unfold mbind, prog_mbind, mret, prog_ret in *.

Lemma exec_Return {A} fuel (a : A) w : exec fuel (Return a) w = (Return a, w).
Proof. destruct fuel; reflexivity. Qed.

Lemma exec_Raise {A} fuel e w : exec fuel (@Raise A e) w = (Raise e, w).
Proof. destruct fuel; reflexivity. Qed.

Lemma exec_add {A} n m (p : prog A) w :
  exec (n + m) p w = exec m (exec n p w).1 (exec n p w).2.
Proof.
  revert p w. induction n as [| n IH]; intros p w; cbn; [done |].
  destruct (step p w) as [[p' w'] |] eqn:Hstep; [apply IH |].
  cbn. destruct m; cbn; [done | by rewrite Hstep].
Qed.

Lemma step_sync_bind {A B} (m : M A) (k : A -> prog B) w :
  step (prog_bind k (sync m)) w
  = Some (match (m w).1 with Ok a => k a | Exc e => Raise e end, (m w).2).
Proof. cbn. by destruct (m w).1. Qed.

Lemma step_bind {A B} (k : A -> prog B) p w p' w' :
  step p w = Some (p', w') ->
  step (prog_bind k p) w = Some (prog_bind k p', w').
Proof.
  destruct p as [| | g eff r]; cbn; [done | done |].
  destruct (g w); [| done]. by intros [= <- <-].
Qed.

Lemma step_sync {A} (m : M A) w :
  step (sync m) w
  = Some (match (m w).1 with Ok a => Return a | Exc e => Raise e end, (m w).2).
Proof. reflexivity. Qed.

(** Take one step of a coroutine that is at a synchronous stretch. *)
Ltac step_sync :=
  cbn [Nat.add exec];
  first [ rewrite step_sync_bind
        | rewrite step_sync
        | erewrite step_bind by apply step_sync_bind
        | erewrite step_bind by (apply step_bind; apply step_sync_bind) ];
  cbn [prog_bind].

(** Worlds are records: two updates of the lock that restore its owner
    restore the world. *)
Lemma with_lock_owner_restore w o o' :
  _lock (manager w) = o ->
  with_manager (with_lock_owner o) (with_manager (with_lock_owner o') w) = w.
Proof. destruct w as [? ? ? ? [? ? ? ?] ?]. cbn. by intros ->. Qed.

Lemma with_lock_owner_id w o :
  _lock (manager w) = o -> with_manager (with_lock_owner o) w = w.
Proof. destruct w as [? ? ? ? [? ? ? ?] ?]. cbn. by intros ->. Qed.

Section ManagerFacts.
Context `{Transports}.
Variable me : task_name.

(** Taking the mutex: possible exactly when it is free, and it changes
    nothing but the owner. *)
Lemma step_async_with_lock {A B} (body : M A) (k : A -> prog B) w :
  _lock (manager w) = None ->
  step (prog_bind k (async_with_lock me body)) w
  = Some (prog_bind k (sync (release_after me body)),
          with_manager (with_lock_owner (Some me)) w).
Proof. intros Hfree. cbn. rewrite Hfree. reflexivity. Qed.

Lemma step_async_with_lock_top {A} (body : M A) w :
  _lock (manager w) = None ->
  step (async_with_lock me body) w
  = Some (sync (release_after me body),
          with_manager (with_lock_owner (Some me)) w).
Proof. intros Hfree. cbn. rewrite Hfree. reflexivity. Qed.

Lemma step_async_with_lock_busy {A B} (body : M A) (k : A -> prog B) w o :
  _lock (manager w) = Some o ->
  step (prog_bind k (async_with_lock me body)) w = None.
Proof. intros Hbusy. cbn. rewrite Hbusy. reflexivity. Qed.

(** The body of a critical section that does not touch the lock, run by
    the owner, ends with the lock released. *)
Lemma release_after_owner {A} (body : M A) w r w1 :
  body w = (r, w1) ->
  _lock (manager w1) = Some me ->
  release_after me body w = (r, with_manager (with_lock_owner None) w1).
Proof.
  intros Hbody Hown. unfold release_after, lock_release.
  rewrite Hbody, Hown, bool_decide_eq_true_2 by done. by destruct r.
Qed.

End ManagerFacts.

(** ** [launch_server]: the two guards *)

Section LaunchGuards.
Context `{Transports}.
Variable me : task_name.
Variables (server_name : string) (client_session_factory : session_factory)
  (init_hook : option InitHookCallable).

(** The guard of [launch_server] does what it is written for on a manager
    whose [_tg] holds [None]. *)
Lemma launch_server_tg_None w :
  _tg (manager w) = Has None ->
  exec 1 (launch_server me server_name client_session_factory init_hook) w
  = (Raise NotEntered, w).
Proof.
  intros Htg. unfold launch_server. unfold_prog.
  cbn [exec]. rewrite step_sync_bind.
  unfold launch_prepare, getattr_tg. unfold_M. rewrite Htg. reflexivity.
Qed.

(** C8 (the code departs from the claim): on a manager that was built
    but never entered, [launch_server] does not reach the [RuntimeError] of
    its guard.  [__init__] assigns nothing to [_tg], so evaluating
    [self._tg] in the guard raises [AttributeError]; the world is left as
    it was. *)
Theorem launch_server_before_enter (server_registry : ServerRegistry) :
  exec 1 (launch_server me server_name client_session_factory init_hook)
    (initial_world server_registry)
  = (Raise (AttributeError
              "'MCPConnectionManager' object has no attribute '_tg'"),
     initial_world server_registry)
  /\ Raise (A := loc)
       (AttributeError "'MCPConnectionManager' object has no attribute '_tg'")
     <> Raise NotEntered.
Proof. split; [reflexivity | discriminate]. Qed.

Lemma launch_prepare_not_found w g :
  _tg (manager w) = Has (Some g) ->
  registry (server_registry (manager w)) !! server_name = None ->
  launch_prepare server_name client_session_factory init_hook w
  = (Exc (ConfigNotFound server_name), w).
Proof.
  intros Htg Hreg. unfold launch_prepare, getattr_tg. unfold_M.
  rewrite Htg. cbn. rewrite Hreg. reflexivity.
Qed.

(** C7: on an entered manager, launching a name the registry does not
    know raises [ConfigNotFound] at once and leaves the world untouched: no
    connection is put in the table and nothing is handed to the task group.
    [get_server] on such a name, when the table has no entry for it, takes
    and releases the mutex and then fails the same way. *)
Theorem launch_server_config_not_found (w : World) (g : TaskGroup)
    (fuel : nat) :
  _tg (manager w) = Has (Some g) ->
  registry (server_registry (manager w)) !! server_name = None ->
  exec (1 + fuel)
    (launch_server me server_name client_session_factory init_hook) w
  = (Raise (ConfigNotFound server_name), w)
  /\ (_lock (manager w) = None ->
      running_servers (manager w) !! server_name = None ->
      exec (3 + fuel)
        (get_server me server_name client_session_factory init_hook) w
      = (Raise (ConfigNotFound server_name), w)).
Proof.
  intros Htg Hreg. split.
  - unfold launch_server. unfold_prog. step_sync.
    rewrite launch_prepare_not_found with (g := g) by done.
    cbn. apply exec_Raise.
  - intros Hfree Habsent.
    unfold get_server. unfold_prog.
    cbn [Nat.add exec]. rewrite step_async_with_lock by done.
    step_sync.
    erewrite release_after_owner; [| reflexivity | reflexivity].
    cbn [fst snd manager with_manager running_servers with_lock_owner].
    rewrite Habsent, with_lock_owner_restore by done.
    unfold launch_and_wait, launch_server. unfold_prog. step_sync.
    rewrite launch_prepare_not_found with (g := g) by done.
    cbn. apply exec_Raise.
Qed.

End LaunchGuards.

Lemma launch_server_config_not_found_witness :
  exec 1 (launch_server (H := Demo.transports) 1 "beta" Demo.good_factory None)
    Demo.entered_world
  = (Raise (ConfigNotFound "beta"), Demo.entered_world)
  /\ exec 3 (get_server (H := Demo.transports) 1 "beta" Demo.good_factory None)
       Demo.entered_world
     = (Raise (ConfigNotFound "beta"), Demo.entered_world).
Proof.
  destruct (launch_server_config_not_found (H := Demo.transports) 1 "beta"
              Demo.good_factory None Demo.entered_world 0 0
              eq_refl eq_refl) as [Hlaunch Hget].
  split; [exact Hlaunch | exact (Hget eq_refl eq_refl)].
Defined.

(** ** Disconnecting *)

Section Disconnect.
Context `{Transports}.
Variable me : task_name.

Lemma delete_absent_running w server_name :
  running_servers (manager w) !! server_name = None ->
  with_manager (with_running_servers (delete server_name)) w = w.
Proof.
  destruct w as [? ? ? ? [? running ? ?] ?]. cbn. intros Habsent.
  unfold with_manager, with_running_servers. cbn. by rewrite delete_id.
Qed.

(** [disconnect_server] run on its own from a world whose mutex is free
    takes three steps.  The first takes the mutex and nothing else.  The
    second removes the entry of the name from the table and releases the
    mutex, leaving every connection object as it was.  The third sets the
    shutdown event of the removed connection and changes nothing in the
    manager.  When the table has no entry for the name the call returns
    normally and the world is what it was. *)
Lemma disconnect_server_alone (w : World) (server_name : string) :
  _lock (manager w) = None ->
  match running_servers (manager w) !! server_name with
  | Some c =>
      let w1 := with_manager (with_lock_owner (Some me)) w in
      let w2 := with_manager (with_running_servers (delete server_name)) w in
      let w3 := with_connections (alter (with_shutdown true) c) w2 in
      exists p1 p2,
        step (disconnect_server me server_name) w = Some (p1, w1)
        /\ _lock (manager w1) = Some me
        /\ step p1 w1 = Some (p2, w2)
        /\ running_servers (manager w2) !! server_name = None
        /\ _lock (manager w2) = None
        /\ connections w2 = connections w
        /\ step p2 w2 = Some (Return tt, w3)
        /\ manager w3 = manager w2
        /\ (is_Some (connections w !! c) ->
            is_shutdown_requested w3 c = true)
  | None =>
      forall fuel,
        exec (3 + fuel) (disconnect_server me server_name) w = (Return tt, w)
  end.
Proof.
  intros Hfree.
  destruct (running_servers (manager w) !! server_name) as [c |] eqn:Hlook.
  - eexists _, _. unfold disconnect_server. unfold_prog.
    split; [by apply step_async_with_lock |].
    split; [reflexivity |].
    split.
    { rewrite step_sync_bind.
      erewrite release_after_owner; [| reflexivity | reflexivity].
      cbn [fst snd manager with_manager running_servers with_lock_owner].
      rewrite Hlook. f_equal. f_equal.
      destruct w as [? ? ? ? [? ? ? ?] ?]. cbn in *. by subst. }
    split; [cbn; apply lookup_delete_eq |].
    split; [done |]. split; [done |].
    split; [reflexivity |]. split; [reflexivity |].
    intros [conn Hconn]. unfold is_shutdown_requested. cbn.
    by rewrite list_lookup_alter_eq, Hconn.
  - intros fuel. unfold disconnect_server. unfold_prog.
    cbn [Nat.add exec]. rewrite step_async_with_lock by done.
    step_sync.
    erewrite release_after_owner; [| reflexivity | reflexivity].
    cbn [fst snd manager with_manager running_servers with_lock_owner].
    rewrite Hlook. step_sync. cbn [fst snd].
    unfold pop_running. unfold_M. cbn [fst snd].
    replace (with_manager (with_lock_owner None) _) with w; [apply exec_Return |].
    rewrite <- (delete_absent_running w server_name Hlook) at 1.
    destruct w as [? ? ? ? [? ? ? ?] ?]. cbn in *. by subst.
Qed.

Lemma shutdown_each_connections items w :
  shutdown_each items w
  = (Ok tt,
     with_connections
       (fun l => foldl (fun l item => alter (with_shutdown true) item.2 l)
                   l items) w).
Proof.
  revert w. induction items as [| [name c] items IH]; intros w.
  - by destruct w.
  - cbn [shutdown_each]. unfold ServerConnectionMethods.request_shutdown.
    unfold_M. cbn. rewrite IH. reflexivity.
Qed.

Lemma lookup_shutdown_fold (items : list (string * nat))
    (l : list ServerConnection) (c : nat) :
  foldl (fun l item => alter (with_shutdown true) item.2 l) l items !! c
  = (if bool_decide (c ∈ items.*2) then with_shutdown true else id)
      <$> l !! c.
Proof.
  revert l. induction items as [| [name c0] items IH]; intros l.
  - cbn. by destruct (l !! c).
  - cbn [foldl snd]. rewrite IH. rewrite fmap_cons. cbn [snd].
    destruct (decide (c = c0)) as [-> | Hne].
    + rewrite list_lookup_alter_eq.
      rewrite (bool_decide_eq_true_2 (c0 ∈ c0 :: items.*2)) by apply list_elem_of_here.
      destruct (l !! c0); [| done]. cbn. by case_bool_decide.
    + rewrite list_lookup_alter_ne by done.
      destruct (bool_decide (c ∈ items.*2)) eqn:Hin.
      * apply bool_decide_eq_true_1 in Hin.
        by rewrite bool_decide_eq_true_2 by (by apply list_elem_of_further).
      * apply bool_decide_eq_false_1 in Hin.
        rewrite bool_decide_eq_false_2; [done |].
        intros [? | ?]%elem_of_cons; done.
Qed.

(** [disconnect_all] run on its own from a world whose mutex is free
    takes two steps.  The first takes the mutex and nothing else.  The
    second sets the shutdown event of every connection in the table,
    empties the table and releases the mutex; it finishes the call. *)
Lemma disconnect_all_alone (w : World) :
  _lock (manager w) = None ->
  let w1 := with_manager (with_lock_owner (Some me)) w in
  exists p1 w2,
    step (disconnect_all me) w = Some (p1, w1)
    /\ _lock (manager w1) = Some me
    /\ step p1 w1 = Some (Return tt, w2)
    /\ (forall fuel, exec (2 + fuel) (disconnect_all me) w = (Return tt, w2))
    /\ running_servers (manager w2) = ∅
    /\ _lock (manager w2) = None
    /\ (forall name c conn,
          running_servers (manager w) !! name = Some c ->
          connections w !! c = Some conn ->
          connections w2 !! c = Some (with_shutdown true conn)
          /\ is_shutdown_requested w2 c = true)
    /\ spawned w2 = spawned w
    /\ (forall c, is_initialized w2 c = is_initialized w c)
    /\ (forall c, session_of w2 c = session_of w c).
Proof.
  intros Hfree w1.
  set (running := running_servers (manager w)).
  set (w2 := if bool_decide (running = ∅) then w
             else with_manager (with_running_servers (fun _ => ∅))
                    (with_connections
                       (fun l => foldl (fun l item =>
                                          alter (with_shutdown true) item.2 l)
                                   l (map_to_list running)) w)).
  assert (Hstep2 : step (sync (release_after me
            (running ← gets (fun w => running_servers (manager w));
             if bool_decide (running = ∅) then mret tt
             else shutdown_each (map_to_list running);;
                  modify (with_manager (with_running_servers (fun _ => ∅))))))
            w1 = Some (Return tt, w2)).
  { rewrite step_sync. subst w2.
    unfold release_after. unfold_M. cbn [manager with_manager w1
      running_servers with_lock_owner]. fold running.
    destruct (bool_decide (running = ∅)) eqn:Hempty.
    - unfold lock_release. cbn. rewrite bool_decide_eq_true_2 by done.
      cbn. do 2 f_equal.
      destruct w as [? ? ? ? [? ? ? ?] ?]. cbn in *. by subst.
    - rewrite shutdown_each_connections. unfold lock_release. cbn.
      rewrite bool_decide_eq_true_2 by done. cbn. do 2 f_equal.
      destruct w as [? ? ? ? [? ? ? ?] ?]. cbn in *. by subst. }
  exists (sync (release_after me
            (running ← gets (fun w => running_servers (manager w));
             if bool_decide (running = ∅) then mret tt
             else shutdown_each (map_to_list running);;
                  modify (with_manager (with_running_servers (fun _ => ∅)))))),
    w2.
  split; [unfold disconnect_all; by apply step_async_with_lock_top |].
  split; [done |]. split; [exact Hstep2 |].
  split.
  { intros fuel. cbn [Nat.add exec]. unfold disconnect_all.
    rewrite step_async_with_lock_top by done.
    fold w1. rewrite Hstep2. apply exec_Return. }
  subst w2. destruct (bool_decide (running = ∅)) eqn:Hempty.
  - apply bool_decide_eq_true_1 in Hempty.
    split; [done |]. split; [done |]. split; [| done].
    intros name c conn Hname. subst running. rewrite Hempty in Hname.
    by rewrite lookup_empty in Hname.
  - split; [done |]. split; [done |]. split.
    + intros name c conn Hname Hconn. cbn.
      assert (Hin : bool_decide (c ∈ (map_to_list running).*2) = true).
      { apply bool_decide_eq_true_2. apply list_elem_of_fmap.
        exists (name, c). split; [done |]. by apply elem_of_map_to_list. }
      unfold is_shutdown_requested. cbn.
      rewrite lookup_shutdown_fold, Hin, Hconn. done.
    + split; [done |]. split.
      * intros c. unfold is_initialized. cbn. rewrite lookup_shutdown_fold.
        destruct (connections w !! c); [| done].
        by destruct (bool_decide (c ∈ _)).
      * intros c. unfold session_of. cbn. rewrite lookup_shutdown_fold.
        destruct (connections w !! c); [| done].
        by destruct (bool_decide (c ∈ _)).
Qed.

(** While another task holds the mutex neither call can move. *)
Lemma disconnect_server_busy w server_name o :
  o <> me ->
  _lock (manager w) = Some o ->
  step (disconnect_server me server_name) w = None
  /\ status_of (disconnect_server me server_name) w = Parked.
Proof. intros _ Hbusy. cbn. by rewrite Hbusy. Qed.

Lemma disconnect_all_busy w o :
  o <> me ->
  _lock (manager w) = Some o ->
  step (disconnect_all me) w = None
  /\ status_of (disconnect_all me) w = Parked.
Proof. intros _ Hbusy. cbn. by rewrite Hbusy. Qed.

(** The steps of [disconnect_server] after the mutex was taken, in
    whatever world they are resumed: the second needs the mutex to be
    held by the caller, the third needs nothing. *)
Lemma disconnect_server_steps w server_name :
  _lock (manager w) = None ->
  exists p1,
    step (disconnect_server me server_name) w
    = Some (p1, with_manager (with_lock_owner (Some me)) w)
    /\ forall w1,
         _lock (manager w1) = Some me ->
         exists p2,
           step p1 w1
           = Some (p2,
                   with_manager (with_lock_owner None)
                     (with_manager
                        (with_running_servers (delete server_name)) w1))
           /\ forall w2,
                step p2 w2
                = Some (Return tt,
                        match running_servers (manager w1) !! server_name with
                        | Some c =>
                            with_connections (alter (with_shutdown true) c) w2
                        | None => w2
                        end).
Proof.
  intros Hfree. eexists. unfold disconnect_server. unfold_prog.
  split; [by apply step_async_with_lock |].
  intros w1 Hown. eexists. split.
  - rewrite step_sync_bind.
    erewrite release_after_owner; [| reflexivity | exact Hown].
    reflexivity.
  - intros w2. cbn [fst].
    destruct (running_servers (manager w1) !! server_name); reflexivity.
Qed.

(** The critical section of [disconnect_all], in whatever world it is
    resumed with the mutex held by the caller. *)
Lemma disconnect_all_steps w :
  _lock (manager w) = None ->
  exists p1,
    step (disconnect_all me) w
    = Some (p1, with_manager (with_lock_owner (Some me)) w)
    /\ forall w1,
         _lock (manager w1) = Some me ->
         exists w2,
           step p1 w1 = Some (Return tt, w2)
           /\ running_servers (manager w2) = ∅
           /\ _lock (manager w2) = None
           /\ (forall name c conn,
                 running_servers (manager w1) !! name = Some c ->
                 connections w1 !! c = Some conn ->
                 connections w2 !! c = Some (with_shutdown true conn)
                 /\ is_shutdown_requested w2 c = true)
           /\ spawned w2 = spawned w1
           /\ (forall c, is_initialized w2 c = is_initialized w1 c)
           /\ (forall c, session_of w2 c = session_of w1 c).
Proof.
  intros Hfree. eexists.
  split; [unfold disconnect_all; by apply step_async_with_lock_top |].
  intros w1 Hown.
  set (running := running_servers (manager w1)).
  exists (with_manager (with_lock_owner None)
            (if bool_decide (running = ∅) then w1
             else with_manager (with_running_servers (fun _ => ∅))
                    (with_connections
                       (fun l => foldl (fun l item =>
                                          alter (with_shutdown true) item.2 l)
                                   l (map_to_list running)) w1))).
  split.
  { rewrite step_sync.
    match goal with
    | |- context [release_after me ?body] =>
        assert (Hbody :
          body w1
          = (Ok tt,
             if bool_decide (running = ∅) then w1
             else with_manager (with_running_servers (fun _ => ∅))
                    (with_connections
                       (fun l => foldl (fun l item =>
                                          alter (with_shutdown true) item.2 l)
                                   l (map_to_list running)) w1)))
    end.
    { unfold_M. fold running.
      destruct (bool_decide (running = ∅)); [reflexivity |].
      by rewrite shutdown_each_connections. }
    rewrite (release_after_owner me _ w1 _ _ Hbody);
      [reflexivity | by destruct (bool_decide (running = ∅))]. }
  destruct (bool_decide (running = ∅)) eqn:Hempty.
  - apply bool_decide_eq_true_1 in Hempty.
    split; [done |]. split; [done |]. split; [| done].
    intros name c conn Hname. subst running. rewrite Hempty in Hname.
    by rewrite lookup_empty in Hname.
  - split; [done |]. split; [done |]. split.
    + intros name c conn Hname Hconn. cbn.
      assert (Hin : bool_decide (c ∈ (map_to_list running).*2) = true).
      { apply bool_decide_eq_true_2. apply list_elem_of_fmap.
        exists (name, c). split; [done |]. by apply elem_of_map_to_list. }
      unfold is_shutdown_requested. cbn.
      rewrite lookup_shutdown_fold, Hin, Hconn. done.
    + split; [done |]. split.
      * intros c. unfold is_initialized. cbn. rewrite lookup_shutdown_fold.
        destruct (connections w1 !! c); [| done].
        by destruct (bool_decide (c ∈ _)).
      * intros c. unfold session_of. cbn. rewrite lookup_shutdown_fold.
        destruct (connections w1 !! c); [| done].
        by destruct (bool_decide (c ∈ _)).
Qed.

(** C6: a call of [disconnect_server] made while another task holds
    the mutex is parked: it cannot take a step.  When the mutex is free it
    takes three steps.  The first takes the mutex and nothing else.  The
    second can only be taken by the holder of the mutex; in whatever world
    it is taken, it removes the entry of the name from the table and
    releases the mutex, leaving every connection object as it was.  The
    third is taken with the mutex released, in whatever world: it sets the
    shutdown event of the connection that was removed and changes nothing
    in the manager.  When the table has no entry for the name the call
    returns normally and the world is what it was. *)
Theorem disconnect_server_spec (w : World) (server_name : string) :
  (forall o, o <> me -> _lock (manager w) = Some o ->
     step (disconnect_server me server_name) w = None
     /\ status_of (disconnect_server me server_name) w = Parked)
  /\ (_lock (manager w) = None ->
      (exists p1,
         step (disconnect_server me server_name) w
         = Some (p1, with_manager (with_lock_owner (Some me)) w)
         /\ forall w1,
              _lock (manager w1) = Some me ->
              exists p2,
                step p1 w1
                = Some (p2,
                        with_manager (with_lock_owner None)
                          (with_manager
                             (with_running_servers (delete server_name)) w1))
                /\ forall w2,
                     step p2 w2
                     = Some (Return tt,
                             match running_servers (manager w1)
                                   !! server_name with
                             | Some c =>
                                 with_connections
                                   (alter (with_shutdown true) c) w2
                             | None => w2
                             end))
      /\ match running_servers (manager w) !! server_name with
         | Some c =>
             let w1 := with_manager (with_lock_owner (Some me)) w in
             let w2 :=
               with_manager (with_running_servers (delete server_name)) w in
             let w3 := with_connections (alter (with_shutdown true) c) w2 in
             exists p1 p2,
               step (disconnect_server me server_name) w = Some (p1, w1)
               /\ _lock (manager w1) = Some me
               /\ step p1 w1 = Some (p2, w2)
               /\ running_servers (manager w2) !! server_name = None
               /\ _lock (manager w2) = None
               /\ connections w2 = connections w
               /\ step p2 w2 = Some (Return tt, w3)
               /\ manager w3 = manager w2
               /\ (is_Some (connections w !! c) ->
                   is_shutdown_requested w3 c = true)
         | None =>
             forall fuel,
               exec (3 + fuel) (disconnect_server me server_name) w
               = (Return tt, w)
         end).
Proof.
  split.
  - intros o Hother Hbusy. by eapply disconnect_server_busy.
  - intros Hfree. split.
    + by apply disconnect_server_steps.
    + by apply disconnect_server_alone.
Qed.

(** C5: a call of [disconnect_all] made while another task holds the
    mutex is parked: it cannot take a step.  When the mutex is free it
    takes two steps.  The first takes the mutex and nothing else.  The
    second can only be taken by the holder of the mutex; in whatever world
    it is taken, it sets the shutdown event of every connection that is in
    the table, empties the table, releases the mutex and finishes the call.
    No step waits for anything but the mutex, and nothing the lifecycle
    tasks own (the list of started tasks, the initialized events, the
    sessions) is read or changed. *)
Theorem disconnect_all_spec (w : World) :
  (forall o, o <> me -> _lock (manager w) = Some o ->
     step (disconnect_all me) w = None
     /\ status_of (disconnect_all me) w = Parked)
  /\ (_lock (manager w) = None ->
      (exists p1,
         step (disconnect_all me) w
         = Some (p1, with_manager (with_lock_owner (Some me)) w)
         /\ forall w1,
              _lock (manager w1) = Some me ->
              exists w2,
                step p1 w1 = Some (Return tt, w2)
                /\ running_servers (manager w2) = ∅
                /\ _lock (manager w2) = None
                /\ (forall name c conn,
                      running_servers (manager w1) !! name = Some c ->
                      connections w1 !! c = Some conn ->
                      connections w2 !! c = Some (with_shutdown true conn)
                      /\ is_shutdown_requested w2 c = true)
                /\ spawned w2 = spawned w1
                /\ (forall c, is_initialized w2 c = is_initialized w1 c)
                /\ (forall c, session_of w2 c = session_of w1 c))
      /\ let w1 := with_manager (with_lock_owner (Some me)) w in
         exists p1 w2,
           step (disconnect_all me) w = Some (p1, w1)
           /\ _lock (manager w1) = Some me
           /\ step p1 w1 = Some (Return tt, w2)
           /\ (forall fuel,
                 exec (2 + fuel) (disconnect_all me) w = (Return tt, w2))
           /\ running_servers (manager w2) = ∅
           /\ _lock (manager w2) = None
           /\ (forall name c conn,
                 running_servers (manager w) !! name = Some c ->
                 connections w !! c = Some conn ->
                 connections w2 !! c = Some (with_shutdown true conn)
                 /\ is_shutdown_requested w2 c = true)
           /\ spawned w2 = spawned w
           /\ (forall c, is_initialized w2 c = is_initialized w c)
           /\ (forall c, session_of w2 c = session_of w c)).
Proof.
  split.
  - intros o Hother Hbusy. by eapply disconnect_all_busy.
  - intros Hfree. split.
    + by apply disconnect_all_steps.
    + by apply disconnect_all_alone.
Qed.

End Disconnect.

Lemma disconnect_server_spec_witness :
  let w := Demo.launched_world Demo.good_factory None in
  (step (disconnect_server 5 "alpha") (Demo.busy_world 9) = None
   /\ running_servers (manager (Demo.busy_world 9)) !! "alpha" = Some 0
   /\ is_shutdown_requested (Demo.busy_world 9) 0 = false)
  /\ (forall fuel, exec (3 + fuel) (disconnect_server 5 "beta") w = (Return tt, w))
  /\ (let w1 := with_manager (with_lock_owner (Some 5)) w in
      let w2 := with_manager (with_running_servers (delete "alpha")) w in
      let w3 := with_connections (alter (with_shutdown true) 0) w2 in
      exists p1 p2,
        step (disconnect_server 5 "alpha") w = Some (p1, w1)
        /\ _lock (manager w1) = Some 5
        /\ step p1 w1 = Some (p2, w2)
        /\ running_servers (manager w2) !! "alpha" = None
        /\ _lock (manager w2) = None
        /\ connections w2 = connections w
        /\ step p2 w2 = Some (Return tt, w3)
        /\ manager w3 = manager w2
        /\ (is_Some (connections w !! 0) -> is_shutdown_requested w3 0 = true)).
Proof.
  intros w. split; [| split].
  - split; [| split; reflexivity].
    assert (Hother : 9 <> 5) by discriminate.
    exact (proj1 (proj1 (disconnect_server_spec 5 (Demo.busy_world 9) "alpha")
                    9 Hother eq_refl)).
  - exact (proj2 (proj2 (disconnect_server_spec 5 w "beta") eq_refl)).
  - exact (proj2 (proj2 (disconnect_server_spec 5 w "alpha") eq_refl)).
Defined.

Lemma disconnect_all_spec_witness :
  (step (disconnect_all 5) (Demo.busy_world 9) = None
   /\ running_servers (manager (Demo.busy_world 9)) !! "alpha" = Some 0
   /\ is_shutdown_requested (Demo.busy_world 9) 0 = false)
  /\ exists w2,
       (forall fuel,
          exec (2 + fuel) (disconnect_all 5)
            (Demo.launched_world Demo.good_factory None)
          = (Return tt, w2))
       /\ running_servers (manager w2) = ∅
       /\ is_shutdown_requested w2 0 = true.
Proof.
  split.
  - split; [| split; reflexivity].
    assert (Hother : 9 <> 5) by discriminate.
    exact (proj1 (proj1 (disconnect_all_spec 5 (Demo.busy_world 9))
                    9 Hother eq_refl)).
  - destruct (proj2 (proj2 (disconnect_all_spec 5
                              (Demo.launched_world Demo.good_factory None))
                      eq_refl))
      as (p1 & w2 & _ & _ & _ & Hexec & Hempty & _ & Hflag & _).
    exists w2. split; [exact Hexec |]. split; [exact Hempty |].
    exact (proj2 (Hflag "alpha" 0 (Demo.connection Demo.good_factory None)
                    eq_refl eq_refl)).
Defined.

(** ** [initialize_session] *)

Section InitializeSession.
Import ServerConnectionMethods.

(** C9: with an init hook configured, [initialize_session] awaits
    [session.initialize()] first.  If that raises, the hook is not called
    and the exception comes out.  If it returns, the hook is called with
    the session and [server_config.auth]; when the hook returns the
    initialized event is set right after it, and when the hook raises the
    event is left as it was and the exception comes out of
    [initialize_session]. *)
Theorem initialize_session_hook_order (w : World) (self : loc)
    (conn : ServerConnection) (s : ClientSession) (hook : InitHookCallable)
    (fuel : nat) :
  connections w !! self = Some conn ->
  session conn = Some s ->
  _init_hook conn = Some hook ->
  let a := auth (server_config conn) in
  let sid := session_id s in
  let out := exec (2 + fuel) (initialize_session self) w in
  match session_initialize s with
  | Exc e =>
      out.1 = Raise e
      /\ trace out.2 = trace w ++ [CallInitialize sid]
      /\ connections out.2 = connections w
  | Ok _ =>
      match hook (Some s) a with
      | Ok _ =>
          out.1 = Return tt
          /\ trace out.2
             = trace w ++ [CallInitialize sid; CallInitHook (Some sid) a;
                           SetInitialized self]
          /\ is_initialized out.2 self = true
      | Exc e =>
          out.1 = Raise e
          /\ trace out.2
             = trace w ++ [CallInitialize sid; CallInitHook (Some sid) a]
          /\ connections out.2 = connections w
      end
  end.
Proof.
  intros Hconn Hsession Hhook a sid out. subst out.
  unfold initialize_session, await_session_initialize. unfold_prog.
  step_sync. unfold set_initialized. unfold_M. rewrite Hconn, Hsession. cbn.
  destruct (session_initialize s) as [[] | e] eqn:Hinit.
  - cbn. rewrite Hconn. cbn. rewrite Hhook, Hsession. cbn. fold a sid.
    destruct (hook (Some s) a) as [[] | e] eqn:Hcall.
    + cbn. rewrite exec_Return. cbn. rewrite <- !app_assoc.
      split; [done |]. split; [done |].
      unfold is_initialized. cbn. by rewrite list_lookup_alter_eq, Hconn.
    + cbn. rewrite exec_Raise. cbn. rewrite <- !app_assoc. done.
  - cbn. done.
Qed.

Lemma initialize_session_hook_order_witness :
  let w := (ServerConnectionMethods.create_session 0 4 5
              (Demo.launched_world Demo.good_factory (Some Demo.failing_hook))).2 in
  let out := exec 2 (initialize_session 0) w in
  out.1 = Raise (Foreign true "HookError")
  /\ trace out.2 = trace w ++ [CallInitialize 7; CallInitHook (Some 7) (Some "token")]
  /\ connections out.2 = connections w.
Proof.
  exact (initialize_session_hook_order
           (ServerConnectionMethods.create_session 0 4 5
              (Demo.launched_world Demo.good_factory (Some Demo.failing_hook))).2
           0
           (with_session
              (Some (with_server_config Demo.stdio_config Demo.good_session))
              (Demo.connection Demo.good_factory (Some Demo.failing_hook)))
           (with_server_config Demo.stdio_config Demo.good_session)
           Demo.failing_hook 0 eq_refl eq_refl eq_refl).
Defined.

End InitializeSession.

(** ** Frame properties of coroutines *)

Section Preserves.
Variable R : World -> World -> Prop.
Context `{!PreOrder R}.

Lemma M_preserves_ret {A} (a : A) : M_preserves R (mret a).
Proof. intros w. reflexivity. Qed.

Lemma M_preserves_raise {A} e : M_preserves R (@raise A e).
Proof. intros w. reflexivity. Qed.

Lemma M_preserves_gets {A} (f : World -> A) : M_preserves R (gets f).
Proof. intros w. reflexivity. Qed.

Lemma M_preserves_lift_result {A} (r : result A) : M_preserves R (lift_result r).
Proof. intros w. reflexivity. Qed.

Lemma M_preserves_deref c : M_preserves R (deref c).
Proof. intros w. unfold deref. destruct (connections w !! c); reflexivity. Qed.

Lemma M_preserves_bind {A B} (m : M A) (k : A -> M B) :
  M_preserves R m -> (forall a, M_preserves R (k a)) -> M_preserves R (m ≫= k).
Proof.
  intros Hm Hk w. unfold mbind, M_bind. specialize (Hm w).
  destruct (m w) as [[a | e] w']; cbn in *; [| done].
  etrans; [exact Hm | apply Hk].
Qed.

Lemma preserves_await_when {A} g (m : M A) :
  M_preserves R m -> preserves R (await_when g m).
Proof.
  intros Hm. constructor; [exact Hm |].
  intros w. destruct (m w).1; constructor.
Qed.

Lemma preserves_sync {A} (m : M A) : M_preserves R m -> preserves R (sync m).
Proof. apply preserves_await_when. Qed.

Lemma preserves_bind {A B} (p : prog A) (k : A -> prog B) :
  preserves R p -> (forall a, preserves R (k a)) -> preserves R (p ≫= k).
Proof.
  intros Hp Hk. unfold mbind, prog_mbind.
  induction Hp as [a | e | g eff r Heff _ IH]; cbn; [apply Hk | constructor |].
  constructor; [exact Heff | exact IH].
Qed.

Lemma preserves_try_except {A} (p : prog A) handler :
  preserves R p ->
  (forall e h, handler e = Some h -> preserves R h) ->
  preserves R (try_except p handler).
Proof.
  intros Hp Hh.
  induction Hp as [a | e | g eff r Heff _ IH]; cbn.
  - constructor.
  - destruct (handler e) as [h |] eqn:He; [by eapply Hh | constructor].
  - constructor; [exact Heff | exact IH].
Qed.

Lemma preserves_except_Exception {A} (p : prog A) handler :
  preserves R p -> (forall e, preserves R (handler e)) ->
  preserves R (except_Exception p handler).
Proof.
  intros Hp Hh. apply preserves_try_except; [done |].
  intros e h. destruct (isinstance_Exception e); [| done].
  intros [= <-]. apply Hh.
Qed.

Lemma preserves_try_finally {A} (p : prog A) fin :
  preserves R p -> preserves R fin -> preserves R (try_finally p fin).
Proof.
  intros Hp Hfin.
  induction Hp as [a | e | g eff r Heff _ IH]; cbn.
  - apply (preserves_bind fin); [done | constructor].
  - apply (preserves_bind fin); [done | constructor].
  - constructor; [exact Heff | exact IH].
Qed.

Lemma preserves_async_with {X A} (aenter : prog X) aexit (body : X -> prog A) :
  preserves R aenter -> preserves R aexit -> (forall x, preserves R (body x)) ->
  preserves R (async_with aenter aexit body).
Proof.
  intros Henter Hexit Hbody. apply preserves_bind; [done |].
  intros x. by apply preserves_try_finally.
Qed.

Lemma preserves_step {A} (p p' : prog A) w w' :
  preserves R p -> step p w = Some (p', w') -> R w w' /\ preserves R p'.
Proof.
  intros Hp. destruct Hp as [a | e | g eff r Heff Hr]; cbn; [done | done |].
  destruct (g w); [| done]. intros [= <- <-]. split; [apply Heff | apply Hr].
Qed.

Lemma preserves_exec {A} fuel (p : prog A) w :
  preserves R p -> R w (exec fuel p w).2 /\ preserves R (exec fuel p w).1.
Proof.
  revert p w. induction fuel as [| fuel IH]; intros p w Hp; cbn; [done |].
  destruct (step p w) as [[p' w'] |] eqn:Hstep; [| done].
  destruct (preserves_step _ _ _ _ Hp Hstep) as [HR Hp'].
  destruct (IH p' w' Hp') as [HR' Hp''].
  split; [by etrans | done].
Qed.

End Preserves.

Lemma lifecycle_frame_preorder c : PreOrder (lifecycle_frame c).
Proof.
  split.
  - intros w. unfold lifecycle_frame. auto 10.
  - intros w1 w2 w3 (Hm & Hs & Hc & Ht & Hl & Ho) (Hm' & Hs' & Hc' & Ht' & Hl' & Ho').
    unfold lifecycle_frame.
    rewrite Hm', Hs', Hc', Ht', Hl'. repeat split; try done.
    intros c' Hne. by rewrite Ho', Ho.
Qed.

#[global] Existing Instance lifecycle_frame_preorder.

Lemma lifecycle_frame_emit c ev : M_preserves (lifecycle_frame c) (emit ev).
Proof. intros w. unfold lifecycle_frame. cbn. auto 10. Qed.

Lemma lifecycle_frame_update c f :
  M_preserves (lifecycle_frame c) (update c f).
Proof.
  intros w. unfold lifecycle_frame. cbn.
  repeat split; try done.
  - apply length_alter.
  - intros c' Hne. by apply list_lookup_alter_ne.
Qed.

Create HintDb frame.
#[export] Hint Resolve M_preserves_ret M_preserves_raise M_preserves_gets
  M_preserves_lift_result M_preserves_deref lifecycle_frame_emit
  lifecycle_frame_update preserves_sync preserves_await_when
  preserves_Return preserves_Raise lifecycle_frame_preorder : frame.

(** Frame goals on straight-line synchronous code. *)
Ltac frame_M :=
  repeat first
    [ solve [auto with frame]
    | progress cbv zeta
    | match goal with
      | |- M_preserves ?R (_ ≫= _) => apply (M_preserves_bind R); [| intros ?]
      | |- M_preserves ?R (match ?x with _ => _ end) => destruct x
      end ].

Lemma lifecycle_frame_create_session c r s :
  M_preserves (lifecycle_frame c)
    (ServerConnectionMethods.create_session c r s).
Proof. unfold ServerConnectionMethods.create_session. frame_M. Qed.

Lemma lifecycle_frame_set_initialized c :
  M_preserves (lifecycle_frame c) (ServerConnectionMethods.set_initialized c).
Proof. unfold ServerConnectionMethods.set_initialized. frame_M. Qed.

#[export] Hint Resolve lifecycle_frame_create_session
  lifecycle_frame_set_initialized : frame.

(** Frame goals on coroutines. *)
Ltac frame_prog :=
  repeat first
    [ match goal with
      | |- preserves ?R (_ ≫= _) => apply (preserves_bind R); [| intros ?]
      | |- preserves ?R (async_with _ _ _) =>
          apply (preserves_async_with R); [| | intros ?]
      | |- preserves ?R (sync _) => apply (preserves_sync R); frame_M
      | |- preserves ?R (await_when _ _) =>
          apply (preserves_await_when R); frame_M
      | |- preserves ?R (Return _) => constructor
      | |- preserves ?R (Raise _) => constructor
      | |- preserves ?R (match ?x with _ => _ end) => destruct x
      end ].

Lemma lifecycle_frame_initialize_session c :
  preserves (lifecycle_frame c) (ServerConnectionMethods.initialize_session c).
Proof.
  unfold ServerConnectionMethods.initialize_session,
    ServerConnectionMethods.await_session_initialize.
  frame_prog.
Qed.

Lemma lifecycle_frame_body c : preserves (lifecycle_frame c) (lifecycle_body c).
Proof.
  unfold lifecycle_body, transport_context_aenter, transport_context_aexit,
    ServerConnectionMethods.wait_for_shutdown_request.
  frame_prog; unfold session_context_aenter, session_context_aexit;
    frame_prog; apply lifecycle_frame_initialize_session.
Qed.

Lemma lifecycle_frame_task c :
  preserves (lifecycle_frame c) (_server_lifecycle_task c).
Proof.
  apply preserves_except_Exception; [apply lifecycle_frame_body |].
  intros e. unfold lifecycle_handler. apply preserves_bind; [| constructor].
  apply preserves_sync, lifecycle_frame_set_initialized.
Qed.

(** ** The lifecycle task and its [except] clause *)

Section Lifecycle.
Import ServerConnectionMethods.

(** When the body of a [try] ends by raising an exception that a clause
    handles, the whole statement goes on with the handler from the world
    the body left. *)
Lemma exec_try_except_raise {A} fuel (body h : prog A) handler w e w1 :
  exec fuel body w = (Raise e, w1) ->
  handler e = Some h ->
  exists used, used <= fuel /\
    forall extra,
      exec (fuel + extra) (try_except body handler) w = exec (used + extra) h w1.
Proof.
  intros Hexec Hh. revert body w Hexec.
  induction fuel as [| fuel IH]; intros body w Hexec.
  - cbn in Hexec. injection Hexec as -> ->. exists 0. split; [lia |].
    intros extra. cbn [try_except]. by rewrite Hh.
  - destruct body as [a | e' | g eff r].
    + cbn in Hexec. discriminate.
    + cbn in Hexec. injection Hexec as -> ->. exists (S fuel). split; [lia |].
      intros extra. cbn [try_except]. by rewrite Hh.
    + cbn in Hexec. destruct (g w) eqn:Hg; [| discriminate].
      destruct (IH _ _ Hexec) as (used & Hle & Hrun).
      exists used. split; [lia |]. intros extra.
      cbn [Nat.add exec try_except step]. rewrite Hg. apply Hrun.
Qed.

(** An exception no clause handles comes out of the statement as it came
    out of the body. *)
Lemma exec_try_except_pass {A} fuel (body : prog A) handler w e w1 :
  exec fuel body w = (Raise e, w1) ->
  handler e = None ->
  exec fuel (try_except body handler) w = (Raise e, w1).
Proof.
  intros Hexec Hh. revert body w Hexec.
  induction fuel as [| fuel IH]; intros body w Hexec.
  - cbn in Hexec. injection Hexec as -> ->. cbn. by rewrite Hh.
  - destruct body as [a | e' | g eff r].
    + cbn in Hexec. discriminate.
    + cbn in Hexec. injection Hexec as -> ->. cbn [try_except]. rewrite Hh.
      reflexivity.
    + cbn in Hexec. destruct (g w) eqn:Hg; [| discriminate].
      cbn [exec try_except step]. rewrite Hg. by apply IH.
Qed.

Lemma set_initialized_sets c w :
  is_Some (connections w !! c) ->
  is_initialized (set_initialized c w).2 c = true.
Proof.
  intros [conn Hconn]. unfold is_initialized, set_initialized. unfold_M. cbn.
  by rewrite list_lookup_alter_eq, Hconn.
Qed.

(** C2, as the code has it: if the body of the lifecycle task (transport
    acquisition, session construction, handshake, init hook, steady-state
    wait) ends by raising an exception that is an instance of [Exception],
    then the task sets the initialized event of its connection and ends by
    raising that same exception; from then on a coroutine parked in
    [wait_for_initialized] can run.  An exception that is not an instance of
    [Exception] comes out of the task with the event as the body left it. *)
Theorem lifecycle_failure_sets_ready (c : loc) (w w1 : World) (e : exn)
    (fuel : nat) :
  is_Some (connections w !! c) ->
  exec fuel (lifecycle_body c) w = (Raise e, w1) ->
  if isinstance_Exception e then
    let w2 := (set_initialized c w1).2 in
    (forall extra,
       exec (S (fuel + extra)) (_server_lifecycle_task c) w = (Raise e, w2))
    /\ is_initialized w2 c = true
    /\ status_of (wait_for_initialized c) w2 = Runnable
  else
    forall extra,
      exec (fuel + extra) (_server_lifecycle_task c) w = (Raise e, w1).
Proof.
  intros Hvalid Hexec.
  destruct (isinstance_Exception e) eqn:Hcls.
  - assert (Hvalid1 : is_Some (connections w1 !! c)).
    { destruct (preserves_exec (lifecycle_frame c) fuel _ w
                  (lifecycle_frame_body c)) as [(_ & _ & _ & _ & Hlen & _) _].
      rewrite Hexec in Hlen. cbn in Hlen.
      apply lookup_lt_is_Some. rewrite Hlen. by apply lookup_lt_is_Some. }
    destruct (exec_try_except_raise fuel (lifecycle_body c)
                (lifecycle_handler c e)
                (fun exc => if isinstance_Exception exc
                            then Some (lifecycle_handler c exc) else None)
                w e w1 Hexec) as (used & _ & Hrun); [by rewrite Hcls |].
    split; [| split].
    + intros extra. unfold _server_lifecycle_task, except_Exception.
      replace (S (fuel + extra)) with (fuel + S extra) by lia.
      rewrite Hrun. replace (used + S extra) with (S (used + extra)) by lia.
      unfold lifecycle_handler. unfold_prog. step_sync.
      destruct (set_initialized c w1) as [[[] | e'] w2] eqn:Hset.
      * cbn. apply exec_Raise.
      * unfold set_initialized in Hset. unfold_M. cbn in Hset. discriminate.
    + by apply set_initialized_sets.
    + cbn. by rewrite set_initialized_sets.
  - intros extra. unfold _server_lifecycle_task, except_Exception.
    rewrite exec_add.
    erewrite exec_try_except_pass; [| exact Hexec | by rewrite Hcls].
    cbn. apply exec_Raise.
Qed.

End Lifecycle.

Example lifecycle_body_factory_failure :
  (exec 5 (lifecycle_body 0)
     (Demo.launched_world Demo.failing_factory None)).1
  = Raise (Foreign true "ConnectionRefusedError").
Proof. vm_compute. reflexivity. Qed.

Lemma lifecycle_failure_sets_ready_witness :
  let w := Demo.launched_world Demo.failing_factory None in
  let w1 := (exec 5 (lifecycle_body 0) w).2 in
  let w2 := (ServerConnectionMethods.set_initialized 0 w1).2 in
  (forall extra,
     exec (S (5 + extra)) (_server_lifecycle_task 0) w
     = (Raise (Foreign true "ConnectionRefusedError"), w2))
  /\ is_initialized w2 0 = true
  /\ status_of (ServerConnectionMethods.wait_for_initialized 0) w2 = Runnable.
Proof.
  intros w w1 w2.
  assert (Hvalid : is_Some (connections w !! 0))
    by (vm_compute; eexists; reflexivity).
  assert (Hexec : exec 5 (lifecycle_body 0) w
                  = (Raise (Foreign true "ConnectionRefusedError"), w1))
    by (vm_compute; reflexivity).
  exact (lifecycle_failure_sets_ready 0 w w1
           (Foreign true "ConnectionRefusedError") 5 Hvalid Hexec).
Defined.

(** C2, as stated, fails for exceptions outside [Exception]: the handshake
    of this session is cancelled, the task ends with [CancelledError], the
    initialized event is still unset and a waiter stays parked. *)
Lemma lifecycle_cancelled_leaves_waiter_parked :
  let w := Demo.launched_world Demo.cancelled_factory None in
  let out := exec 8 (_server_lifecycle_task 0) w in
  (exists w1, exec 8 (lifecycle_body 0) w
              = (Raise (Foreign false "CancelledError"), w1))
  /\ out.1 = Raise (Foreign false "CancelledError")
  /\ is_initialized out.2 0 = false
  /\ status_of (ServerConnectionMethods.wait_for_initialized 0) out.2 = Parked.
Proof.
  cbv zeta. split; [eexists; vm_compute; reflexivity |].
  vm_compute. auto.
Qed.

(** ** [get_server]: the check after readiness *)

Section LaunchSteps.
Context `{Transports}.
Variable me : task_name.
Variables (server_name : string) (client_session_factory : session_factory)
  (init_hook : option InitHookCallable).

Lemma launch_prepare_found w g config :
  _tg (manager w) = Has (Some g) ->
  registry (server_registry (manager w)) !! server_name = Some config ->
  launch_prepare server_name client_session_factory init_hook w
  = (Ok (built_connection server_name client_session_factory init_hook
            (server_registry (manager w)) config), w).
Proof.
  intros Htg Hreg. unfold launch_prepare, getattr_tg. unfold_M.
  rewrite Htg. cbn. rewrite Hreg. reflexivity.
Qed.

Lemma step_launch_server w g config :
  _tg (manager w) = Has (Some g) ->
  registry (server_registry (manager w)) !! server_name = Some config ->
  step (launch_server me server_name client_session_factory init_hook) w
  = Some (async_with_lock me
            (launch_register server_name
               (built_connection server_name client_session_factory init_hook
            (server_registry (manager w)) config)), w).
Proof.
  intros Htg Hreg. unfold launch_server. unfold_prog.
  rewrite step_sync_bind. by erewrite launch_prepare_found.
Qed.

Lemma launch_register_existing conn w c :
  running_servers (manager w) !! server_name = Some c ->
  launch_register server_name conn w = (Ok c, w).
Proof.
  intros Hc. unfold launch_register. unfold_M. by rewrite Hc.
Qed.

Lemma launch_register_new conn w g :
  _tg (manager w) = Has (Some g) ->
  running_servers (manager w) !! server_name = None ->
  launch_register server_name conn w
  = (Ok (length (connections w)), registered server_name g conn w).
Proof.
  intros Htg Hc. unfold launch_register, new_connection, start_soon,
    getattr_tg. unfold_M. rewrite Hc. cbn. rewrite Htg. reflexivity.
Qed.

Lemma step_critical_existing conn w c :
  _lock (manager w) = Some me ->
  running_servers (manager w) !! server_name = Some c ->
  step (sync (release_after me (launch_register server_name conn))) w
  = Some (Return c, with_manager (with_lock_owner None) w).
Proof.
  intros Hown Hc. rewrite step_sync.
  erewrite release_after_owner;
    [| by apply launch_register_existing | done]. reflexivity.
Qed.

Lemma step_critical_new conn w g :
  _lock (manager w) = Some me ->
  _tg (manager w) = Has (Some g) ->
  running_servers (manager w) !! server_name = None ->
  step (sync (release_after me (launch_register server_name conn))) w
  = Some (Return (length (connections w)),
          with_manager (with_lock_owner None) (registered server_name g conn w)).
Proof.
  intros Hown Htg Hc. rewrite step_sync.
  erewrite release_after_owner;
    [| by apply launch_register_new | done]. reflexivity.
Qed.

(** C3: a call of [get_server] that finds no entry for the name goes
    through [launch_server] and then parks on the initialized event of the
    connection it got; the coroutine it has become by then is
    [await_ready_and_check].  That coroutine cannot move while the event is
    unset.  Once the event is set, if the connection's [session] is still
    [None] it raises [InitializationFailed] and no connection is returned;
    if a session is stored it returns the connection. *)
Theorem get_server_checks_session (w : World) (g : TaskGroup)
    (config : MCPServerSettings) :
  _tg (manager w) = Has (Some g) ->
  registry (server_registry (manager w)) !! server_name = Some config ->
  _lock (manager w) = None ->
  running_servers (manager w) !! server_name = None ->
  let c := length (connections w) in
  (exists w1,
     exec 5 (get_server me server_name client_session_factory init_hook) w
     = (await_ready_and_check server_name c, w1)
     /\ running_servers (manager w1) !! server_name = Some c
     /\ status_of (await_ready_and_check server_name c) w1 = Parked)
  /\ (forall c' w2,
        is_initialized w2 c' = false ->
        step (await_ready_and_check server_name c') w2 = None)
  /\ (forall c' w2 fuel,
        is_initialized w2 c' = true ->
        match session_of w2 c' with
        | None =>
            exec (2 + fuel) (await_ready_and_check server_name c') w2
            = (Raise (InitializationFailed server_name), w2)
        | Some _ =>
            exec (2 + fuel) (await_ready_and_check server_name c') w2
            = (Return c', w2)
        end).
Proof.
  intros Htg Hreg Hfree Habsent c. split; [| split].
  - eexists. split; [| split].
    + unfold get_server. unfold_prog.
      cbn [exec]. rewrite step_async_with_lock by done.
      step_sync.
      erewrite release_after_owner; [| reflexivity | reflexivity].
      cbn [fst snd manager with_manager running_servers with_lock_owner].
      rewrite Habsent, with_lock_owner_restore by done.
      unfold launch_and_wait. unfold_prog.
      cbn [exec]. erewrite step_bind by (by eapply step_launch_server).
      erewrite step_bind by (by apply step_async_with_lock_top).
      erewrite step_bind by (by eapply step_critical_new).
      cbn [prog_bind exec]. reflexivity.
    + cbn. apply lookup_insert_eq.
    + cbn. unfold is_initialized. cbn.
      rewrite lookup_app_r, Nat.sub_diag by done. reflexivity.
  - intros c' w2 Hunset. cbn. by rewrite Hunset.
  - intros c' w2 fuel Hset.
    unfold await_ready_and_check,
      ServerConnectionMethods.wait_for_initialized. unfold_prog.
    cbn [Nat.add exec prog_bind await_when step]. rewrite Hset.
    unfold_M. cbn [fst snd]. cbn [prog_bind].
    rewrite step_sync. unfold check_session, session_of. unfold_M.
    unfold is_initialized in Hset.
    destruct (connections w2 !! c') as [conn |]; [| done].
    destruct (session conn); cbn; [apply exec_Return | apply exec_Raise].
Qed.

End LaunchSteps.

Lemma get_server_checks_session_witness :
  let w2 := (exec 6 (_server_lifecycle_task 0)
               (Demo.launched_world Demo.failing_factory None)).2 in
  (exists w1,
     exec 5 (get_server (H := Demo.transports) 1 "alpha"
               Demo.failing_factory None) Demo.entered_world
     = (await_ready_and_check "alpha" 0, w1))
  /\ exec 2 (await_ready_and_check "alpha" 0) w2
     = (Raise (InitializationFailed "alpha"), w2).
Proof.
  intros w2.
  destruct (get_server_checks_session (H := Demo.transports) 1 "alpha"
              Demo.failing_factory None Demo.entered_world 0
              Demo.stdio_config eq_refl eq_refl eq_refl eq_refl)
    as ((w1 & Hflow & _) & _ & Hcheck).
  split; [exists w1; exact Hflow |].
  assert (Hset : is_initialized w2 0 = true) by (vm_compute; reflexivity).
  assert (Hnone : session_of w2 0 = None) by (vm_compute; reflexivity).
  specialize (Hcheck 0 w2 0 Hset). rewrite Hnone in Hcheck. exact Hcheck.
Defined.

(** ** [launch_server]: one connection per name *)

Section LaunchOnce.
Context `{Transports}.
Variable me : task_name.
Variables (server_name : string) (client_session_factory : session_factory)
  (init_hook : option InitHookCallable).

Lemma registered_release w g conn :
  _lock (manager w) = None ->
  with_manager (with_lock_owner None)
    (registered server_name g conn (with_manager (with_lock_owner (Some me)) w))
  = registered server_name g conn w.
Proof.
  destruct w as [? ? ? ? [? ? ? ?] ?]. cbn. intros ->. reflexivity.
Qed.

(** Launching a name that already has a connection: the connection in the
    table is returned and the world is what it was. *)
Lemma launch_server_existing w g config c fuel :
  _tg (manager w) = Has (Some g) ->
  registry (server_registry (manager w)) !! server_name = Some config ->
  _lock (manager w) = None ->
  running_servers (manager w) !! server_name = Some c ->
  exec (3 + fuel)
    (launch_server me server_name client_session_factory init_hook) w
  = (Return c, w).
Proof.
  intros Htg Hreg Hfree Hc. cbn [Nat.add exec].
  erewrite step_launch_server by done.
  rewrite step_async_with_lock_top by done.
  erewrite step_critical_existing by done.
  rewrite with_lock_owner_restore by done. apply exec_Return.
Qed.

(** Launching a name that has none: a new connection object is put on the
    heap, entered in the table and handed to the task group, all in the
    one step taken while holding the mutex. *)
Lemma launch_server_new w g config fuel :
  _tg (manager w) = Has (Some g) ->
  registry (server_registry (manager w)) !! server_name = Some config ->
  _lock (manager w) = None ->
  running_servers (manager w) !! server_name = None ->
  let conn := built_connection server_name client_session_factory init_hook
                (server_registry (manager w)) config in
  exec (3 + fuel)
    (launch_server me server_name client_session_factory init_hook) w
  = (Return (length (connections w)), registered server_name g conn w)
  /\ exec 2 (launch_server me server_name client_session_factory init_hook) w
     = (sync (release_after me (launch_register server_name conn)),
        with_manager (with_lock_owner (Some me)) w).
Proof.
  intros Htg Hreg Hfree Hc conn. split.
  - cbn [Nat.add exec].
    erewrite step_launch_server by done.
    rewrite step_async_with_lock_top by done.
    erewrite step_critical_new by done.
    cbn [connections with_manager]. rewrite registered_release by done.
    apply exec_Return.
  - cbn [exec].
    erewrite step_launch_server by done.
    rewrite step_async_with_lock_top by done. reflexivity.
Qed.

End LaunchOnce.

(** *** Concurrent launches of one name *)

Section ConcurrentLaunch.
Context `{Transports}.
Variables (server_name : string) (w0 : World) (g : TaskGroup)
  (config : MCPServerSettings).
Hypothesis Htg0 : _tg (manager w0) = Has (Some g).
Hypothesis Hreg0 :
  registry (server_registry (manager w0)) !! server_name = Some config.
Hypothesis Hfree0 : _lock (manager w0) = None.
Hypothesis Habsent0 : running_servers (manager w0) !! server_name = None.

Lemma launcher_at_frame i w w' p :
  manager w' = manager w -> launcher_at server_name i w p -> launcher_at server_name i w' p.
Proof.
  intros Hm Hat. destruct Hat; constructor; by rewrite Hm.
Qed.

Lemma table_state_frame c w w' :
  lifecycle_frame c w w' -> table_state server_name w0 g w -> table_state server_name w0 g w'.
Proof.
  intros (Hm & Hs & _ & _ & Hl & _). unfold table_state.
  by rewrite Hm, Hs, Hl.
Qed.

Lemma step_async_with_lock_top_busy {A} i (body : M A) w o :
  _lock (manager w) = Some o -> step (async_with_lock i body) w = None.
Proof. intros Hbusy. cbn. by rewrite Hbusy. Qed.

(** One step of a launching caller. *)
Lemma launcher_step i w p p' w' :
  _tg (manager w) = Has (Some g) ->
  server_registry (manager w) = server_registry (manager w0) ->
  table_state server_name w0 g w ->
  launcher_at server_name i w p ->
  step p w = Some (p', w') ->
  _tg (manager w') = Has (Some g)
  /\ server_registry (manager w') = server_registry (manager w0)
  /\ table_state server_name w0 g w'
  /\ launcher_at server_name i w' p'
  /\ (forall j q, j <> i -> launcher_at server_name j w q -> launcher_at server_name j w' q)
  /\ (forall j, _lock (manager w') = Some j ->
                 j = i \/ _lock (manager w) = Some j).
Proof.
  intros Htg Hreg Htable Hat Hstep.
  destruct Hat as [f hook Hnot | conn Hnot | conn Hown | c Hnot Hc].
  - erewrite step_launch_server in Hstep; [| done | by rewrite Hreg].
    injection Hstep as <- <-. repeat split; try done; [by constructor | auto].
  - destruct (_lock (manager w)) as [o |] eqn:Hlock.
    { by erewrite step_async_with_lock_top_busy in Hstep. }
    rewrite step_async_with_lock_top in Hstep by done.
    injection Hstep as <- <-. repeat split; try done.
    + by constructor.
    + intros j q Hne Hq.
      destruct Hq; first [constructor; cbn; congruence | congruence].
    + cbn. intros j [= <-]. by left.
  - destruct Htable as [(Habs & Hsp & Hlen) | (Hpres & Hsp & Hlen)].
    + erewrite step_critical_new in Hstep by done.
      injection Hstep as <- <-. repeat split; try done.
      * right. cbn. rewrite Hlen, Hsp, length_app. cbn.
        split; [apply lookup_insert_eq |]. split; [done | lia].
      * constructor; cbn; [done | apply lookup_insert_eq].
      * intros j q Hne Hq.
        destruct Hq; first [constructor; cbn; congruence | congruence].
    + erewrite step_critical_existing in Hstep by done.
      injection Hstep as <- <-. repeat split; try done.
      * by right.
      * by constructor.
      * intros j q Hne Hq.
        destruct Hq; first [constructor; cbn; congruence | congruence].
  - discriminate.
Qed.

Lemma launch_inv_start args :
  launch_inv server_name w0 g (start w0 (concurrent_launchers server_name args)).
Proof.
  split; cbn; try done.
  - left. done.
  - intros i p. unfold concurrent_launchers. rewrite list_lookup_imap.
    destruct (args !! i) as [[f hook] |]; [| done].
    intros [= <-]. constructor. by rewrite Hfree0.
  - intros i. by rewrite Hfree0.
Qed.

Lemma launch_inv_step t s : launch_inv server_name w0 g s -> launch_inv server_name w0 g (sched_step t s).
Proof.
  intros [Htg Hreg Htable Hcallers Howner Hlife].
  destruct t as [i | c]; cbn.
  - destruct (sys_callers s !! i) as [p |] eqn:Hp; [| by split].
    destruct (step p (sys_world s)) as [[p' w'] |] eqn:Hstep; [| by split].
    destruct (launcher_step i _ p p' w' Htg Hreg Htable (Hcallers i p Hp) Hstep)
      as (Htg' & Hreg' & Htable' & Hat' & Hothers & Hlock').
    split; cbn; try done.
    + intros j q Hq.
      destruct (decide (j = i)) as [-> | Hne].
      * rewrite list_lookup_insert_eq in Hq by (by eapply lookup_lt_Some).
        by injection Hq as <-.
      * rewrite list_lookup_insert_ne in Hq by done.
        apply Hothers; [done | by apply Hcallers].
    + intros j Hj. apply lookup_lt_is_Some. rewrite length_insert.
      apply lookup_lt_is_Some.
      destruct (Hlock' j Hj) as [-> | Hold]; [by eexists | by apply Howner].
  - destruct (is_spawned (sys_world s) c); [| by split].
    destruct (step (lifecycle_of s c) (sys_world s)) as [[p' w'] |] eqn:Hstep;
      [| by split].
    assert (Hpres : preserves (lifecycle_frame c) (lifecycle_of s c)).
    { unfold lifecycle_of. destruct (sys_lifecycles s !! c) as [p |] eqn:Hp.
      - by eapply Hlife.
      - apply lifecycle_frame_task. }
    destruct (preserves_step _ _ _ _ _ Hpres Hstep) as [Hframe Hp'].
    pose proof Hframe as (Hm & _).
    split; cbn.
    + by rewrite Hm.
    + by rewrite Hm.
    + by eapply table_state_frame.
    + intros i p Hp. eapply launcher_at_frame; [done | by apply Hcallers].
    + intros i. rewrite Hm. apply Howner.
    + intros c' q Hq.
      destruct (decide (c' = c)) as [-> | Hne].
      * rewrite lookup_insert_eq in Hq. by injection Hq as <-.
      * rewrite lookup_insert_ne in Hq by done. by eapply Hlife.
Qed.

Lemma launch_inv_run schedule s : launch_inv server_name w0 g s -> launch_inv server_name w0 g (run schedule s).
Proof.
  revert s. induction schedule as [| t schedule IH]; intros s Hinv; [done |].
  cbn. apply IH. by apply launch_inv_step.
Qed.

(** What the invariant says about the callers that are done. *)
Lemma launch_inv_returned s i c :
  launch_inv server_name w0 g s ->
  sys_callers s !! i = Some (Return c) ->
  c = length (connections w0)
  /\ running_servers (manager (sys_world s)) !! server_name = Some c
  /\ spawned (sys_world s) = spawned w0 ++ [(g, c)].
Proof.
  intros Hinv Hi. pose proof (inv_callers _ _ _ s Hinv i _ Hi) as Hat.
  inversion Hat as [| | | c' Hnot Hc]; subst.
  destruct (inv_table _ _ _ s Hinv) as [(Habs & _) | (Hpres & Hsp & _)];
    [congruence |].
  rewrite Hpres in Hc. injection Hc as <-. done.
Qed.

Lemma launch_inv_no_failure s i e :
  launch_inv server_name w0 g s -> sys_callers s !! i <> Some (Raise e).
Proof.
  intros Hinv Hi. pose proof (inv_callers _ _ _ s Hinv i _ Hi) as Hat.
  inversion Hat.
Qed.

(** No deadlock: while some caller has not returned, some caller can take
    a step. *)
Lemma launch_inv_progress s :
  launch_inv server_name w0 g s ->
  (exists i p, sys_callers s !! i = Some p /\ forall c, p <> Return c) ->
  exists i p, sys_callers s !! i = Some p /\ is_Some (step p (sys_world s)).
Proof.
  intros Hinv (i & p & Hp & Hrunning).
  destruct (_lock (manager (sys_world s))) as [j |] eqn:Hlock.
  - destruct (inv_owner _ _ _ s Hinv j Hlock) as [q Hq].
    exists j, q. split; [done |].
    destruct (inv_callers _ _ _ s Hinv j q Hq); try congruence.
    by eexists.
  - exists i, p. split; [done |].
    destruct (inv_callers _ _ _ s Hinv i p Hp) as [f hook _ | conn _ | conn Hown | c _ _].
    + erewrite step_launch_server;
        [by eexists | apply (inv_tg _ _ _ s Hinv) |].
      rewrite (inv_registry _ _ _ s Hinv). exact Hreg0.
    + rewrite step_async_with_lock_top by done. by eexists.
    + congruence.
    + by destruct (Hrunning c).
Qed.

End ConcurrentLaunch.

(** C1: on an entered manager whose registry knows the name and whose
    mutex is free:
    - if the table has a connection for the name, [launch_server] returns
      it and the world (table, heap of connections, started tasks) is what
      it was;
    - otherwise [launch_server] takes the mutex and then, in the single
      step it takes while holding it, puts the new connection in the table
      and hands its lifecycle task to the task group;
    - however many callers launch the name at once and however they and
      the lifecycle tasks are interleaved, at most one lifecycle task is
      started for it, no caller fails, every caller that has returned got
      the one connection that is in the table and whose task was started,
      and as long as a caller has not returned some caller can move. *)
Theorem launch_server_at_most_once `{Transports} (server_name : string)
    (w : World) (g : TaskGroup) (config : MCPServerSettings) :
  _tg (manager w) = Has (Some g) ->
  registry (server_registry (manager w)) !! server_name = Some config ->
  _lock (manager w) = None ->
  match running_servers (manager w) !! server_name with
  | Some c =>
      forall me f hook fuel,
        exec (3 + fuel) (launch_server me server_name f hook) w = (Return c, w)
  | None =>
      (forall me f hook fuel,
         let conn := built_connection server_name f hook
                       (server_registry (manager w)) config in
         exec (3 + fuel) (launch_server me server_name f hook) w
         = (Return (length (connections w)), registered server_name g conn w)
         /\ exec 2 (launch_server me server_name f hook) w
            = (sync (release_after me (launch_register server_name conn)),
               with_manager (with_lock_owner (Some me)) w))
      /\ forall args schedule,
           let s := run schedule
                      (start w (concurrent_launchers server_name args)) in
           let c := length (connections w) in
           (spawned (sys_world s) = spawned w
            \/ spawned (sys_world s) = spawned w ++ [(g, c)])
           /\ (forall i e, sys_callers s !! i <> Some (Raise e))
           /\ (forall i c',
                 sys_callers s !! i = Some (Return c') ->
                 c' = c
                 /\ running_servers (manager (sys_world s)) !! server_name
                    = Some c
                 /\ spawned (sys_world s) = spawned w ++ [(g, c)])
           /\ ((exists i p, sys_callers s !! i = Some p
                            /\ forall c', p <> Return c') ->
               exists i p, sys_callers s !! i = Some p
                           /\ is_Some (step p (sys_world s)))
  end.
Proof.
  intros Htg Hreg Hfree.
  destruct (running_servers (manager w) !! server_name) as [c |] eqn:Hc.
  - intros me f hook fuel. by eapply launch_server_existing.
  - split.
    + intros me f hook fuel. by apply launch_server_new.
    + intros args schedule s c.
      assert (Hinv : launch_inv server_name w g s).
      { eapply launch_inv_run; [exact Hreg |].
        by eapply launch_inv_start. }
      split; [| split; [| split]].
      * destruct (inv_table _ _ _ s Hinv) as [(_ & Hsp & _) | (_ & Hsp & _)];
          [by left | by right].
      * intros i e. by eapply launch_inv_no_failure.
      * intros i c' Hi.
        destruct (launch_inv_returned _ _ _ s i c' Hinv Hi) as (-> & ? & ?).
        done.
      * eapply launch_inv_progress; [exact Hreg | exact Hinv].
Qed.

Lemma launch_server_at_most_once_witness :
  let s := run [Caller 0; Caller 1; Caller 1; Caller 0; Lifecycle 0;
                Caller 1; Caller 0; Caller 0; Lifecycle 0; Caller 1]
             (start Demo.entered_world
                (concurrent_launchers (H := Demo.transports) "alpha"
                   [(Demo.good_factory, None);
                    (Demo.failing_factory, Some Demo.good_hook)])) in
  sys_callers s !! 0 = Some (Return 0)
  /\ sys_callers s !! 1 = Some (Return 0)
  /\ running_servers (manager (sys_world s)) !! "alpha" = Some 0
  /\ spawned (sys_world s) = [(0, 0)]
  /\ forall me f hook,
       exec 3 (launch_server (H := Demo.transports) me "alpha" f hook)
         (Demo.launched_world Demo.good_factory None)
       = (Return 0, Demo.launched_world Demo.good_factory None).
Proof.
  intros s.
  pose proof (launch_server_at_most_once (H := Demo.transports) "alpha"
                Demo.entered_world 0 Demo.stdio_config
                eq_refl eq_refl eq_refl) as Hnew.
  pose proof (launch_server_at_most_once (H := Demo.transports) "alpha"
                (Demo.launched_world Demo.good_factory None) 0
                Demo.stdio_config eq_refl eq_refl eq_refl) as Hold.
  assert (H0 : sys_callers s !! 0 = Some (Return 0))
    by (vm_compute; reflexivity).
  assert (H1 : sys_callers s !! 1 = Some (Return 0))
    by (vm_compute; reflexivity).
  split; [exact H0 |]. split; [exact H1 |].
  destruct Hnew as [_ Hconc].
  destruct (Hconc [(Demo.good_factory, None);
                   (Demo.failing_factory, Some Demo.good_hook)]
              [Caller 0; Caller 1; Caller 1; Caller 0; Lifecycle 0;
               Caller 1; Caller 0; Caller 0; Lifecycle 0; Caller 1])
    as (_ & _ & Hret & _).
  destruct (Hret 0 0 H0) as (_ & Htable & Hspawned).
  split; [exact Htable |]. split; [exact Hspawned |].
  intros me f hook. exact (Hold me f hook 0).
Defined.

(** ** [get_server]: the fast path *)

Section FastPath.
Context `{Transports}.
Variable me : task_name.
Variables (server_name : string) (client_session_factory : session_factory)
  (init_hook : option InitHookCallable).

(** When the table has an entry for the name, [get_server] returns it
    after taking and releasing the mutex; the initialized event of the
    connection is not consulted. *)
Lemma get_server_fast_path w c fuel :
  _lock (manager w) = None ->
  running_servers (manager w) !! server_name = Some c ->
  exec (2 + fuel)
    (get_server me server_name client_session_factory init_hook) w
  = (Return c, w).
Proof.
  intros Hfree Hc. unfold get_server. unfold_prog.
  cbn [Nat.add exec]. rewrite step_async_with_lock by done.
  step_sync.
  erewrite release_after_owner; [| reflexivity | reflexivity].
  cbn [fst snd manager with_manager running_servers with_lock_owner].
  rewrite Hc, with_lock_owner_restore by done. apply exec_Return.
Qed.

End FastPath.

(** C4 (the code departs from the claim): two tasks ask for "alpha".
    The first launches it and parks on the initialized event.  The
    lifecycle task opens the transport, builds the session and enters it,
    and is about to await [session.initialize()].  The second task's
    [get_server] then finds the entry in the table and returns the
    connection: its initialized event is unset, the handshake has not been
    started, and the task that launched it is still waiting. *)
Theorem get_server_returns_before_handshake :
  let s := run [Caller 0; Caller 0; Caller 0; Caller 0; Caller 0;
                Lifecycle 0; Lifecycle 0; Lifecycle 0; Lifecycle 0;
                Lifecycle 0;
                Caller 1; Caller 1]
             (start Demo.entered_world
                [get_server (H := Demo.transports) 0 "alpha"
                   Demo.good_factory None;
                 get_server (H := Demo.transports) 1 "alpha"
                   Demo.good_factory None]) in
  sys_callers s !! 1 = Some (Return 0)
  /\ is_initialized (sys_world s) 0 = false
  /\ trace (sys_world s)
     = [EnterTransport;
        CallSessionFactory 0 1 (Some (timedelta_seconds 30));
        EnterSession 7]
  /\ caller_status s 0 = Some Parked
  /\ lifecycle_status s 0 = Some Runnable.
Proof. vm_compute. auto 10. Qed.
